(** * Incus daemon core: request admission, heartbeat handling, shared
      mounts and project-prefixed names.

    A shallow embedding of [internal/server/project/project.go] and of the
    daemon core ([createCmd], [Authenticate], [heartbeatHandler],
    [setupSharedMounts]), with the properties of the specification proved
    against it. *)

From Stdlib Require Import ZArith String Ascii List Bool Lia DecimalString.
From stdpp Require Import base strings gmap list.

Local Open Scope string_scope.
Local Open Scope list_scope.
Local Open Scope Z_scope.

(** ** The part of Go's [strings] package the code calls.

    Go strings are byte sequences; [string] is a list of 8-bit [ascii]
    characters, so indices below are byte indices as in Go. *)
Module GoStrings.

(** [len(s)] as a Go [int]. *)
Definition len (s : string) : Z := Z.of_nat (String.length s).

(** [strings.HasPrefix(s, prefix)]. *)
Definition HasPrefix (s pre : string) : bool := String.prefix pre s.

(** Scan of [strings.Index]: first position (counted from [pos]) at which
    [sub] starts, or -1. *)
Fixpoint indexFrom (sub s : string) (pos : Z) : Z :=
  if String.prefix sub s then pos
  else match s with
       | EmptyString => -1
       | String _ s' => indexFrom sub s' (pos + 1)
       end.

(** [strings.Index(s, sub)]. *)
Definition Index (s sub : string) : Z := indexFrom sub s 0.

(** Scan of [strings.LastIndex]: [acc] is the last match seen so far. *)
Fixpoint lastIndexFrom (sub s : string) (pos acc : Z) : Z :=
  let acc' := if String.prefix sub s then pos else acc in
  match s with
  | EmptyString => acc'
  | String _ s' => lastIndexFrom sub s' (pos + 1) acc'
  end.

(** [strings.LastIndex(s, sub)]: index of the last instance of [sub] in
    [s], or -1. *)
Definition LastIndex (s sub : string) : Z := lastIndexFrom sub s 0 (-1).

(** [strings.Contains(s, sub)] is [Index(s, sub) >= 0]. *)
Definition Contains (s sub : string) : bool := 0 <=? Index s sub.

(** The slice expressions [s[lo:hi]] and [s[lo:]] for indices in range. *)
Definition slice (s : string) (lo hi : Z) : string :=
  String.substring (Z.to_nat lo) (Z.to_nat (hi - lo)) s.

Definition sliceFrom (s : string) (lo : Z) : string := slice s lo (len s).

(** The loop of [genSplit]: at most [k] further cuts. *)
Fixpoint splitLoop (k : nat) (s sep : string) : list string :=
  match k with
  | O => [s]
  | S k' =>
      let m := Index s sep in
      if m <? 0 then [s]
      else slice s 0 m :: splitLoop k' (sliceFrom s (m + len sep)) sep
  end.

(** [explode] on single-byte characters (the empty-separator branch of
    [genSplit]); the project package never takes it. *)
Fixpoint explode (k : nat) (s : string) : list string :=
  match s with
  | EmptyString => []
  | String c s' =>
      match k with
      | O => [s]
      | S k' => String c EmptyString :: explode k' s'
      end
  end.

(** [strings.SplitN(s, sep, n)]: [n = 0] gives nil, [n < 0] all pieces,
    [n > 0] at most [n] pieces, the last being the unsplit remainder. *)
Definition SplitN (s sep : string) (n : Z) : list string :=
  if n =? 0 then []
  else if String.eqb sep "" then
    explode (if n <? 0 then String.length s else Z.to_nat (n - 1)) s
  else
    let n' := if n <? 0 then len s + 1 else Z.min n (len s + 1) in
    splitLoop (Z.to_nat (n' - 1)) s sep.

(** Whether byte [c] occurs in [s], and the one-byte string [c]. *)
Fixpoint hasByte (c : ascii) (s : string) : bool :=
  match s with
  | EmptyString => false
  | String b s' => if ascii_dec c b then true else hasByte c s'
  end.

Definition one (c : ascii) : string := String c EmptyString.

End GoStrings.

(** ** [internal/server/project/project.go] *)
Module Project.
Import GoStrings.

(** Default is the string used for a default project. *)
Definition Default : string := "default".

(** separator is used to delimit the project name from the suffix. *)
Definition separator : string := "_".

(** Instance adds the "<project>_" prefix to instance name when the given
    project name is not "default". *)
Definition Instance (projectName instanceName : string) : string :=
  if negb (String.eqb projectName Default)
  then projectName +:+ separator +:+ instanceName
  else instanceName.

(** DNS adds ".<project>" as a suffix when the project is not "default". *)
Definition DNS (projectName instanceName : string) : string :=
  if negb (String.eqb projectName Default)
  then instanceName +:+ "." +:+ projectName
  else instanceName.

(** InstanceParts splits once from the right hand side. *)
Definition InstanceParts (projectInstanceName : string) : string * string :=
  let i := LastIndex projectInstanceName separator in
  if i <? 0 then (Default, projectInstanceName)
  else (slice projectInstanceName 0 i, sliceFrom projectInstanceName (i + 1)).

(** StorageVolume adds the "<project>_" prefix, also for "default". *)
Definition StorageVolume (projectName storageVolumeName : string) : string :=
  projectName +:+ separator +:+ storageVolumeName.

(** StorageVolumeParts: [parts[0], parts[1]] of [SplitN(name, "_", 2)].
    An index beyond the length of [parts] is a run-time panic, rendered
    as [None]. *)
Definition StorageVolumeParts (projectStorageVolumeName : string)
  : option (string * string) :=
  let parts := SplitN projectStorageVolumeName "_" 2 in
  match parts !! 0%nat with
  | None => None
  | Some p0 =>
      match parts !! 1%nat with
      | None => None
      | Some p1 => Some (p0, p1)
      end
  end.

End Project.

(** ** The daemon core: data model *)
Module Daemon.
Import GoStrings.

(** Go [error] values. The pipeline only tells [*oidc.AuthError] from
    every other error. *)
Inductive error :=
| AuthError (msg : string)
| ErrorString (msg : string).

(** [x509.Certificate], identified by its raw DER bytes. *)
Record Certificate := { Raw : string }.

(** [localtls.CertInfo], the network certificate of the endpoints. *)
Record CertInfo := { CertPEM : string }.

(** [certificate.Type]. *)
Inductive CertType := TypeClient | TypeServer | TypeMetrics.

(** [auth.UserAccess]. A nil [Projects] map reads as the empty map. *)
Record UserAccess := {
  Admin : bool;
  Projects : gmap string (list string)
}.

(** The values the pipeline reads from or stores in [r.Context()]. *)
Record Context := {
  ConnCred : error + Z;                  (* ucred.GetCredFromContext: the peer uid *)
  CtxUsername : option string;
  CtxProtocol : option string;
  CtxAccess : option UserAccess;
  CtxForwardedAddress : option string;
  CtxForwardedUsername : option string;
  CtxForwardedProtocol : option string
}.

(** [http.Request], the fields the daemon core reads. [TLS] is [None]
    for [r.TLS == nil], otherwise [r.TLS.PeerCertificates]; [Header] is
    keyed by canonical header name, as the server stores the headers it
    parsed, and holds the first value of each; [BodyErr] is the error
    (if any) of reading [r.Body]. *)
Record Request := {
  RemoteAddr : string;
  TLS : option (list Certificate);
  Method : string;
  URLPath : string;
  Header : gmap string string;
  BodyErr : option error;
  Ctx : Context
}.

(** Bytes of [net/textproto]: letters, digits and the other bytes a
    header field name may hold. *)
Definition isLowerByte (c : ascii) : bool :=
  (97 <=? N_of_ascii c)%N && (N_of_ascii c <=? 122)%N.

Definition isUpperByte (c : ascii) : bool :=
  (65 <=? N_of_ascii c)%N && (N_of_ascii c <=? 90)%N.

Definition isDigitByte (c : ascii) : bool :=
  (48 <=? N_of_ascii c)%N && (N_of_ascii c <=? 57)%N.

Definition validHeaderFieldByte (c : ascii) : bool :=
  isLowerByte c || isUpperByte c || isDigitByte c
  || existsb (Ascii.eqb c) (list_ascii_of_string "!#$%&'*+-.^_`|~").

Fixpoint validHeaderField (s : string) : bool :=
  match s with
  | EmptyString => true
  | String c rest => validHeaderFieldByte c && validHeaderField rest
  end.

(** The loop of [canonicalMIMEHeaderKey]: upper case for the first letter
    and for the letter after each dash, lower case for the others. *)
Fixpoint canonicalBytes (upper : bool) (s : string) : string :=
  match s with
  | EmptyString => EmptyString
  | String c rest =>
      let c' :=
        if upper && isLowerByte c then ascii_of_N (N_of_ascii c - 32)
        else if negb upper && isUpperByte c then ascii_of_N (N_of_ascii c + 32)
        else c in
      String c' (canonicalBytes (Ascii.eqb c' "-") rest)
  end.

(** [textproto.CanonicalMIMEHeaderKey]: a key with a byte that no header
    field name may hold is returned unchanged. *)
Definition CanonicalMIMEHeaderKey (s : string) : string :=
  if validHeaderField s then canonicalBytes true s else s.

(** [r.Header.Get(key)]: the value stored under the canonical form of
    [key], the empty string when the header is absent. *)
Definition HeaderGet (r : Request) (key : string) : string :=
  default "" (Header r !! CanonicalMIMEHeaderKey key).

(** [r.WithContext(ctx)]. *)
Definition WithContext (r : Request) (ctx : Context) : Request :=
  {| RemoteAddr := RemoteAddr r; TLS := TLS r; Method := Method r;
     URLPath := URLPath r; Header := Header r; BodyErr := BodyErr r;
     Ctx := ctx |}.

(** [response.Response]: the sentinel [EmptySyncResponse], an error
    response with its HTTP status, or whatever else a handler built. *)
Inductive Response :=
| EmptySyncResponse
| ErrorResponse (code : Z) (err : option string)
| HandlerResponse (code : Z) (body : string).

(** Modelled from the spec: the constructors of [internal/server/response]
    (not part of the sources), with the status codes of the admission
    responses: 503, 401, 403, 404, 501 and 500. *)
Definition Unavailable (err : option string) : Response := ErrorResponse 503 err.
Definition Unauthorized (err : option string) : Response := ErrorResponse 401 err.
Definition Forbidden (err : option string) : Response := ErrorResponse 403 err.
Definition NotFound (err : option string) : Response := ErrorResponse 404 err.
Definition NotImplemented (err : option string) : Response := ErrorResponse 501 err.
Definition InternalError (err : option string) : Response := ErrorResponse 500 err.

(** [err.Error()]. *)
Definition Error (e : error) : string :=
  match e with AuthError m => m | ErrorString m => m end.

(** APIEndpointAction represents an action on an API endpoint. *)
Record APIEndpointAction := {
  Handler : option (Request -> Response);
  AccessHandler : option (Request -> Response);
  AllowUntrusted : bool
}.

(** APIEndpointAlias represents an alias URL of an APIEndpoint. *)
Record APIEndpointAlias := { AliasName : string; AliasPath : string }.

(** APIEndpoint represents a URL in our API. *)
Record APIEndpoint := {
  Name : string;
  Path : string;
  Aliases : list APIEndpointAlias;
  Get : APIEndpointAction;
  Head : APIEndpointAction;
  Put : APIEndpointAction;
  Post : APIEndpointAction;
  Delete : APIEndpointAction;
  Patch : APIEndpointAction
}.

(** [oidc.Verifier]: [IsRequest] and [Auth]. *)
Record Verifier := {
  IsRequest : Request -> bool;
  Auth : Request -> error + string
}.

(** [db.RaftNode] with its embedded [NodeInfo]. *)
Record RaftNode := {
  RaftNodeID : Z;
  RaftNodeAddress : string;
  RaftNodeRole : Z;
  RaftNodeName : string
}.

(** The fields of [Daemon] (and of what it points to) that the modelled
    functions read or write. [dbCluster] is [true] when [d.db.Cluster] is
    not nil; [raftNodes] is the raft-node table of the local database. *)
Record Daemon := {
  clientCertsCertificates : CertType -> gmap string Certificate;
  clientCertsProjects : option (gmap string (list string));
  networkCert : CertInfo;
  oidcVerifier : option Verifier;
  trustCACertificates : bool;
  userIsAdmin : Request -> bool;         (* d.authorizer.UserIsAdmin *)
  setupChanClosed : bool;
  shutdownCancelled : bool;              (* d.shutdownCtx.Err() == context.Canceled *)
  timeSkew : bool;
  dbCluster : bool;
  raftNodes : list RaftNode
}.

(** Code of the repository that is outside the sources, taken as
    parameters: [localUtil.CheckTrustState], [isClusterNotification],
    [user.LookupId], the global [daemon.Debug], [localUtil.IsJSONRequest],
    the [%q] verb, whether rendering a response fails,
    [response.SmartError], [time.Time]'s printing and
    [internalUtil.VarPath]. *)
Record Externals := {
  CheckTrustState :
    Certificate -> gmap string Certificate -> CertInfo -> bool -> bool * string;
  isClusterNotification : Request -> bool;
  LookupId : Z -> error + string;
  Debug : bool;
  IsJSONRequest : Request -> bool;
  Quote : string -> string;
  RenderErr : Response -> option error;
  SmartError : error -> Response;
  TimeString : Z -> string;
  VarPath : string -> string;
  HeaderForwardedAddress : string;
  HeaderForwardedUsername : string;
  HeaderForwardedProtocol : string
}.

(** What the closure registered by [createCmd] does to the response
    writer and to the endpoint's handlers, in order. *)
Inductive Event :=
| EvSetContentType                       (* w.Header().Set("Content-Type", ...) *)
| EvAuthenticate                         (* d.Authenticate(w, r) *)
| EvWriteOIDCHeaders                     (* d.oidcVerifier.WriteHeaders(w) *)
| EvAccessHandler (r : Request)          (* action.AccessHandler(d, r) *)
| EvHandler (r : Request)                (* action.Handler(d, r) *)
| EvRender (resp : Response).            (* resp.Render(w) *)

(** [util.ValueInSlice]. *)
Definition ValueInSlice (key : string) (l : list string) : bool :=
  existsb (String.eqb key) l.

Definition TLSisNil (r : Request) : bool :=
  match TLS r with None => true | Some _ => false end.

(** [fmt.Sprintf("uid=%d", cred.Uid)]. *)
Definition uidString (uid : Z) : string :=
  "uid=" +:+ NilEmpty.string_of_uint (N.to_uint (Z.to_N uid)).

Section Core.
Variable X : Externals.

(** The loop [for _, i := range r.TLS.PeerCertificates] around
    [CheckTrustState]: the name returned for the first trusted
    certificate. *)
Fixpoint firstTrusted (d : Daemon) (trustSet : gmap string Certificate)
    (ca : bool) (certs : list Certificate) : option string :=
  match certs with
  | [] => None
  | i :: rest =>
      let '(trusted, name) := CheckTrustState X i trustSet (networkCert d) ca in
      if trusted then Some name else firstTrusted d trustSet ca rest
  end.

(** Authenticate validates an incoming http Request. [w] tells whether
    the response writer is non-nil. Returns whether trusted, the
    username (or fingerprint), the protocol and the error. *)
Definition Authenticate (d : Daemon) (w : bool) (r : Request)
  : bool * string * string * option error :=
  let trustedCerts := clientCertsCertificates d in
  match
    match TLS r with
    | Some certs => firstTrusted d (trustedCerts TypeServer) false certs
    | None => None
    end
  with
  | Some fingerprint => (true, fingerprint, "cluster", None)
  | None =>
    if String.eqb (RemoteAddr r) "@" && TLSisNil r then
      if w then
        match ConnCred (Ctx r) with
        | inl err => (false, "", "", Some err)
        | inr uid =>
            match LookupId X uid with
            | inl _ => (true, uidString uid, "unix", None)
            | inr username => (true, username, "unix", None)
            end
        end
      else (true, "", "unix", None)
    else if String.eqb (RemoteAddr r) "@dev_incus" then
      (false, "", "",
       Some (ErrorString "Main API query can't come from /dev/incus socket"))
    else if isClusterNotification X r then
      (false, "", "",
       Some (ErrorString "Cluster notification isn't using trusted server certificate"))
    else
      match TLS r with
      | None => (false, "", "", Some (ErrorString "Bad/missing TLS on network query"))
      | Some certs =>
        match
          match oidcVerifier d with
          | Some v => if IsRequest v r then Some v else None
          | None => None
          end
        with
        | Some v =>
            match Auth v r with
            | inl err => (false, "", "", Some err)
            | inr userName => (true, userName, "oidc", None)
            end
        | None =>
            let trustCA := trustCACertificates d in
            match
              if String.eqb (URLPath r) "/1.0/metrics"
              then firstTrusted d (trustedCerts TypeMetrics) trustCA certs
              else None
            with
            | Some username => (true, username, "tls", None)
            | None =>
                match firstTrusted d (trustedCerts TypeClient) trustCA certs with
                | Some username => (true, username, "tls", None)
                | None => (false, "", "", None)
                end
            end
        end
      end
  end.

(** Convenience function around Authenticate. *)
Definition checkTrustedClient (d : Daemon) (r : Request) : option error :=
  let '(trusted, _, _, err) := Authenticate d false r in
  if negb trusted || bool_decide (err <> None) then
    match err with
    | Some e => Some e
    | None => Some (ErrorString "Not authorized")
    end
  else None.

(** The URI [createCmd] registers the endpoint at. *)
Definition createCmdURI (version : string) (c : APIEndpoint) : string :=
  if String.eqb (Path c) "" then "/" +:+ version
  else if negb (String.eqb version "") then "/" +:+ version +:+ "/" +:+ Path c
  else "/" +:+ Path c.

(** The closure computing the user access data of a trusted request. *)
Definition userAccess (d : Daemon) (protocol username : string)
  : UserAccess * option error :=
  let ua := {| Admin := true; Projects := ∅ |} in
  if String.eqb protocol "cluster" then (ua, None)
  else if String.eqb protocol "tls" then
    match clientCertsProjects d with
    | Some certProjects =>
        match certProjects !! username with
        | Some projects =>
            ({| Admin := false;
                Projects := foldl (fun projectMap projectName =>
                                     <[projectName := []]> projectMap) ∅ projects |},
             None)
        | None => (ua, None)
        end
    | None => (ua, None)
    end
  else (ua, None).

Definition untrustedOk (c : APIEndpoint) (r : Request) : bool :=
  (String.eqb (Method r) "GET" && AllowUntrusted (Get c))
  || (String.eqb (Method r) "POST" && AllowUntrusted (Post c)).

Definition writeOIDCHeaders (d : Daemon) : list Event :=
  match oidcVerifier d with
  | Some _ => [EvWriteOIDCHeaders]
  | None => []
  end.

(** *** The closure [createCmd] registers.

    The closure returns early at several places. [admission] is the
    part up to the comment "Actually process the request": it yields
    the events so far and, unless it returned, the request (with its
    context) that goes on. [process] is the rest. *)

(** Dump full request JSON when in debug mode. *)
Definition debugDump (r : Request) : list Event * option Request :=
  if Debug X && negb (String.eqb (Method r) "GET") && IsJSONRequest X r then
    match BodyErr r with
    | Some err => ([EvRender (InternalError (Some (Error err)))], None)
    | None => ([], Some r)
    end
  else ([], Some r).

(** Add authentication/authorization context data. *)
Definition authContext (r : Request) (username protocol : string)
    (ua : UserAccess) : Context :=
  let cluster := String.eqb protocol "cluster" in
  let ctx := Ctx r in
  {| ConnCred := ConnCred ctx;
     CtxUsername := Some username;
     CtxProtocol := Some protocol;
     CtxAccess := Some ua;
     CtxForwardedAddress :=
       if cluster then Some (HeaderGet r (HeaderForwardedAddress X))
       else CtxForwardedAddress ctx;
     CtxForwardedUsername :=
       if cluster then Some (HeaderGet r (HeaderForwardedUsername X))
       else CtxForwardedUsername ctx;
     CtxForwardedProtocol :=
       if cluster then Some (HeaderGet r (HeaderForwardedProtocol X))
       else CtxForwardedProtocol ctx |}.

(** The branch on [trusted]. *)
Definition trustGate (d : Daemon) (c : APIEndpoint) (r : Request)
    (trusted : bool) (username protocol : string)
  : list Event * option Request :=
  if trusted then
    let '(ua, err) := userAccess d protocol username in
    match err with
    | Some _ => ([EvRender (Forbidden None)], None)
    | None => debugDump (WithContext r (authContext r username protocol ua))
    end
  else if untrustedOk c r
          && String.eqb (HeaderGet r "X-Incus-authenticated") "" then
    debugDump r
  else (writeOIDCHeaders d ++ [EvRender (Forbidden None)], None).

(** Reject internal queries to remote, non-cluster, clients. *)
Definition internalGate (d : Daemon) (version : string) (c : APIEndpoint)
    (r : Request) (trusted : bool) (username protocol : string)
  : list Event * option Request :=
  if String.eqb version "internal"
     && negb (ValueInSlice protocol ["unix"; "cluster"]) then
    if negb trusted
       || negb (String.eqb (Path c) "cluster/accept")
       || negb (String.eqb protocol "tls") then
      ([EvRender (Forbidden None)], None)
    else trustGate d c r trusted username protocol
  else trustGate d c r trusted username protocol.

(** Authentication and what follows it. *)
Definition authenticated (d : Daemon) (version : string) (c : APIEndpoint)
    (r : Request) : list Event * option Request :=
  let '(trusted, username, protocol, err) := Authenticate d true r in
  match err with
  | Some (AuthError msg) =>
      (EvAuthenticate
         :: writeOIDCHeaders d ++ [EvRender (Unauthorized (Some msg))], None)
  | _ =>
      let '(evs, o) := internalGate d version c r trusted username protocol in
      (EvAuthenticate :: evs, o)
  end.

(** Block public API requests until we're done with basic
    initialization tasks. *)
Definition admission (d : Daemon) (version : string) (c : APIEndpoint)
    (r : Request) : list Event * option Request :=
  if negb (String.eqb (RemoteAddr r) "@" && String.eqb version "internal")
     && negb (setupChanClosed d) then
    ([EvSetContentType;
      EvRender (Unavailable (Some "Daemon setup in progress"))], None)
  else
    let '(evs, o) := authenticated d version c r in
    (EvSetContentType :: evs, o).

(** The exceptions to the 503 while shutting down. *)
Definition allowedDuringShutdown (version : string) (c : APIEndpoint)
    (r : Request) : bool :=
  if String.eqb version "internal" then true
  else if String.eqb (Path c) "" || String.eqb (Path c) "events"
          || String.eqb (Path c) "operations"
          || HasPrefix (Path c) "operations/" then true
  else if String.eqb (Method r) "GET" then true
  else false.

Definition isEmptySyncResponse (resp : Response) : bool :=
  match resp with EmptySyncResponse => true | _ => false end.

Definition handleRequest (d : Daemon) (r : Request)
    (action : APIEndpointAction) : list Event * Response :=
  match Handler action with
  | None => ([], NotImplemented None)
  | Some handler =>
      match AccessHandler action with
      | Some accessHandler =>
          let resp := accessHandler r in
          if negb (isEmptySyncResponse resp) then ([EvAccessHandler r], resp)
          else ([EvAccessHandler r; EvHandler r], handler r)
      | None =>
          if negb (AllowUntrusted action) && negb (userIsAdmin d r) then
            ([], Forbidden None)
          else ([EvHandler r], handler r)
      end
  end.

(** The switch on [r.Method]. *)
Definition dispatch (d : Daemon) (c : APIEndpoint) (r : Request)
  : list Event * Response :=
  let m := Method r in
  if String.eqb m "GET" then handleRequest d r (Get c)
  else if String.eqb m "HEAD" then handleRequest d r (Head c)
  else if String.eqb m "PUT" then handleRequest d r (Put c)
  else if String.eqb m "POST" then handleRequest d r (Post c)
  else if String.eqb m "DELETE" then handleRequest d r (Delete c)
  else if String.eqb m "PATCH" then handleRequest d r (Patch c)
  else ([], NotFound (Some ("Method " +:+ Quote X m +:+ " not found"))).

(** [resp.Render(w)], with a smart error rendered when that fails. *)
Definition render (resp : Response) : list Event :=
  EvRender resp ::
  match RenderErr X resp with
  | Some err => [EvRender (SmartError X err)]
  | None => []
  end.

Definition dispatched (d : Daemon) (c : APIEndpoint) (r : Request)
  : list Event :=
  let '(evs, resp) := dispatch d c r in evs ++ render resp.

(** Actually process the request. *)
Definition process (d : Daemon) (version : string) (c : APIEndpoint)
    (r : Request) : list Event :=
  if shutdownCancelled d && negb (allowedDuringShutdown version c r) then
    [EvRender (Unavailable (Some "Shutting down"))]
  else dispatched d c r.

(** The whole closure. *)
Definition createCmd (d : Daemon) (version : string) (c : APIEndpoint)
    (r : Request) : list Event :=
  let '(evs, o) := admission d version c r in
  match o with
  | Some r' => evs ++ process d version c r'
  | None => evs
  end.

End Core.

(** *** Heartbeats *)

(** [cluster.APIHeartbeatMember], the fields the handler reads. *)
Record APIHeartbeatMember := {
  MemberAddress : string;
  MemberOnline : bool;
  MemberRaftID : Z;
  MemberRaftRole : Z;
  MemberName : string
}.

(** [cluster.APIHeartbeat]. [Time] counts nanoseconds; [Members] lists
    the entries of the Go map in the order the [range] loop visits
    them. *)
Record APIHeartbeat := {
  Time : Z;
  Members : list (Z * APIHeartbeatMember);
  FullStateList : bool
}.

(** [warningtype.ClusterTimeSkew]. *)
Inductive WarningType := ClusterTimeSkew.

(** What [heartbeatHandler] does to the databases, the response writer
    and the gateway, in order. *)
Inductive Effect :=
| FxUpsertWarningLocalNode (t : WarningType) (message : string)
| FxResolveWarningsByLocalNodeAndType (t : WarningType)
| FxReplaceRaftNodes (nodes : list RaftNode)
| FxHTTPError (message : string) (code : Z)
| FxHeartbeatRestart
| FxGoNodeRefreshTask (hb : APIHeartbeat) (isLeader : bool).

(** What one call of [heartbeatHandler] finds outside the daemon: the
    clock, whether the local transaction fails and what
    [d.gateway.HeartbeatRestart()] answers. *)
Record HeartbeatEnv := {
  now : Z;
  replaceRaftNodesErr : option error;
  heartbeatRestart : bool
}.

(** [time.Second] in nanoseconds. *)
Definition Second : Z := 1000000000.

Definition setTimeSkew (d : Daemon) (b : bool) : Daemon :=
  {| clientCertsCertificates := clientCertsCertificates d;
     clientCertsProjects := clientCertsProjects d;
     networkCert := networkCert d; oidcVerifier := oidcVerifier d;
     trustCACertificates := trustCACertificates d;
     userIsAdmin := userIsAdmin d; setupChanClosed := setupChanClosed d;
     shutdownCancelled := shutdownCancelled d;
     timeSkew := b; dbCluster := dbCluster d; raftNodes := raftNodes d |}.

(** Modelled from the spec: [tx.ReplaceRaftNodes] inside
    [d.db.Node.Transaction] (package [db], not part of the sources)
    "persists the raft-node set in a single local transaction": on
    success the table holds exactly the new set. *)
Definition ReplaceRaftNodes (d : Daemon) (nodes : list RaftNode) : Daemon :=
  {| clientCertsCertificates := clientCertsCertificates d;
     clientCertsProjects := clientCertsProjects d;
     networkCert := networkCert d; oidcVerifier := oidcVerifier d;
     trustCACertificates := trustCACertificates d;
     userIsAdmin := userIsAdmin d; setupChanClosed := setupChanClosed d;
     shutdownCancelled := shutdownCancelled d;
     timeSkew := timeSkew d; dbCluster := dbCluster d; raftNodes := nodes |}.

(** The raft nodes of the heartbeat info: the members with a raft ID. *)
Fixpoint extractRaftNodes (members : list (Z * APIHeartbeatMember))
  : list RaftNode :=
  match members with
  | [] => []
  | (_, node) :: rest =>
      if 0 <? MemberRaftID node then
        {| RaftNodeID := MemberRaftID node;
           RaftNodeAddress := MemberAddress node;
           RaftNodeRole := MemberRaftRole node;
           RaftNodeName := MemberName node |} :: extractRaftNodes rest
      else extractRaftNodes rest
  end.

Section Heartbeat.
Variable X : Externals.

(** Look for time skews. *)
Definition timeSkewCheck (env : HeartbeatEnv) (d : Daemon)
    (hbData : APIHeartbeat) : Daemon * list Effect :=
  if (Time hbData + 5 * Second <? now env)
     || (now env <? Time hbData + (-5) * Second) then
    (setTimeSkew d true,
     if negb (timeSkew d) && dbCluster d then
       [FxUpsertWarningLocalNode ClusterTimeSkew
          ("leaderTime: " +:+ TimeString X (Time hbData)
           +:+ ", localTime: " +:+ TimeString X (now env))]
     else [])
  else if timeSkew d then
    (setTimeSkew d false,
     if dbCluster d then [FxResolveWarningsByLocalNodeAndType ClusterTimeSkew]
     else [])
  else (d, []).

(** heartbeatHandler handles heartbeat requests from other cluster
    members. *)
Definition heartbeatHandler (env : HeartbeatEnv) (d : Daemon)
    (isLeader : bool) (hbData : APIHeartbeat) : Daemon * list Effect :=
  let '(d1, fx) := timeSkewCheck env d hbData in
  let nodes := extractRaftNodes (Members hbData) in
  if Z.of_nat (length nodes) <=? 0 then
    (d1, fx ++ [FxHTTPError "400 Empty raft member set received" 400])
  else
    match replaceRaftNodesErr env with
    | Some _ =>
        (d1, fx ++ [FxReplaceRaftNodes nodes;
                    FxHTTPError "500 failed to update raft nodes" 500])
    | None =>
        let d2 := ReplaceRaftNodes d1 nodes in
        let fx2 := fx ++ [FxReplaceRaftNodes nodes] in
        if FullStateList hbData then
          if negb isLeader then
            (d2, fx2 ++ [FxGoNodeRefreshTask hbData isLeader])
          else if negb (heartbeatRestart env) then
            (d2, fx2 ++ [FxHeartbeatRestart; FxGoNodeRefreshTask hbData isLeader])
          else (d2, fx2 ++ [FxHeartbeatRestart])
        else if isLeader then
          (d2, fx2 ++ [FxHTTPError
                         "400 Partial heartbeat should not be sent to leader" 400])
        else (d2, fx2)
    end.

(** A run of heartbeats, each with what it finds outside. *)
Fixpoint heartbeats (d : Daemon)
    (run : list (HeartbeatEnv * bool * APIHeartbeat)) : Daemon * list Effect :=
  match run with
  | [] => (d, [])
  | (env, isLeader, hbData) :: rest =>
      let '(d1, fx1) := heartbeatHandler env d isLeader hbData in
      let '(d2, fx2) := heartbeats d1 rest in
      (d2, fx1 ++ fx2)
  end.

End Heartbeat.

(** *** Shared mounts *)

(** The global [daemon.SharedMountsSetup] and the mount points of the
    host. *)
Record MountState := {
  SharedMountsSetup : bool;
  mountPoints : gset string
}.

(** A call of [unix.Mount(source, target, fstype, flags, data)]. *)
Record MountCall := {
  mountSource : string;
  mountTarget : string;
  mountFstype : string;
  mountFlags : Z;
  mountData : string
}.

(** The errors (if any) of the two [unix.Mount] calls. *)
Record MountEnv := {
  mountTmpfsErr : option error;
  mountSharedErr : option error
}.

Definition MS_REC : Z := 16384.
Definition MS_SHARED : Z := 1048576.

(** Modelled from the spec: [linux.IsMountPoint] (not part of the
    sources) is the "already a mount point" check. *)
Definition IsMountPoint (st : MountState) (path : string) : bool :=
  bool_decide (path ∈ mountPoints st).

Section SharedMounts.
Variable X : Externals.

(** setupSharedMounts will mount any shared mounts needed, and set
    daemon.SharedMountsSetup to true. The mutex it holds meanwhile
    does not show in a sequential run. *)
Definition setupSharedMounts (env : MountEnv) (st : MountState)
  : MountState * option error * list MountCall :=
  if SharedMountsSetup st then (st, None, [])
  else
    let path := VarPath X "shmounts" in
    if IsMountPoint st path then
      ({| SharedMountsSetup := true; mountPoints := mountPoints st |}, None, [])
    else
      let tmpfs := {| mountSource := "tmpfs"; mountTarget := path;
                      mountFstype := "tmpfs"; mountFlags := 0;
                      mountData := "size=100k,mode=0711" |} in
      match mountTmpfsErr env with
      | Some err => (st, Some err, [tmpfs])
      | None =>
          let st1 := {| SharedMountsSetup := false;
                        mountPoints := {[path]} ∪ mountPoints st |} in
          let shared := {| mountSource := path; mountTarget := path;
                           mountFstype := "none";
                           mountFlags := Z.lor MS_SHARED MS_REC;
                           mountData := "" |} in
          match mountSharedErr env with
          | Some err => (st1, Some err, [tmpfs; shared])
          | None =>
              ({| SharedMountsSetup := true; mountPoints := mountPoints st1 |},
               None, [tmpfs; shared])
          end
      end.

End SharedMounts.

End Daemon.


(** ** The specification's wording, to compare the code with *)
Module Spec.
Import GoStrings Daemon.

(** The requests the shutdown gate lets through: the internal version,
    the empty path, [events], [operations] and its children, and GET. *)
Definition AllowListed (version : string) (c : APIEndpoint) (r : Request) : Prop :=
  version = "internal" \/ Path c = "" \/ Path c = "events"
  \/ Path c = "operations" \/ (exists rest, Path c = "operations/" +:+ rest)
  \/ Method r = "GET".

(** The name [CheckTrustState] gives for a certificate it trusts. *)
Definition trustedName (X : Externals) (d : Daemon)
    (trustSet : gmap string Certificate) (ca : bool) (cert : Certificate)
  : option string :=
  if (CheckTrustState X cert trustSet (networkCert d) ca).1
  then Some (CheckTrustState X cert trustSet (networkCert d) ca).2
  else None.

(** The first certificate of [certs] that matches the trust set. *)
Definition firstMatch (X : Externals) (d : Daemon)
    (trustSet : gmap string Certificate) (ca : bool) (certs : list Certificate)
  : option string :=
  head (omap (trustedName X d trustSet ca) certs).



(** The action an endpoint registers for an HTTP method. *)
Definition actionOf (c : APIEndpoint) (method : string) : option APIEndpointAction :=
  if decide (method = "GET") then Some (Get c)
  else if decide (method = "HEAD") then Some (Head c)
  else if decide (method = "PUT") then Some (Put c)
  else if decide (method = "POST") then Some (Post c)
  else if decide (method = "DELETE") then Some (Delete c)
  else if decide (method = "PATCH") then Some (Patch c)
  else None.

(** "The action is marked allowUntrusted and the client did not claim
    authentication", for the action of whatever method the request has. *)
Definition UntrustedAllowedAnyMethod (c : APIEndpoint) (r : Request) : Prop :=
  (exists a, actionOf c (Method r) = Some a /\ AllowUntrusted a = true)
  /\ HeaderGet r "X-Incus-authenticated" = "".

(** The same for GET and POST only, as the closure computes it. *)
Definition UntrustedAllowed (c : APIEndpoint) (r : Request) : Prop :=
  ((Method r = "GET" /\ AllowUntrusted (Get c) = true)
   \/ (Method r = "POST" /\ AllowUntrusted (Post c) = true))
  /\ HeaderGet r "X-Incus-authenticated" = "".

(** The heartbeat's time differs from the local clock by more than five
    seconds. *)
Definition skewed (env : HeartbeatEnv) (hb : APIHeartbeat) : Prop :=
  5 * Second < Z.abs (Time hb - now env).

(** A write to one of the databases. *)
Definition isDBWrite (fx : Effect) : bool :=
  match fx with
  | FxUpsertWarningLocalNode _ _
  | FxResolveWarningsByLocalNodeAndType _
  | FxReplaceRaftNodes _ => true
  | _ => false
  end.

Definition isUpsertWarning (fx : Effect) : bool :=
  match fx with FxUpsertWarningLocalNode _ _ => true | _ => false end.

Definition isResolveWarnings (fx : Effect) : bool :=
  match fx with FxResolveWarningsByLocalNodeAndType _ => true | _ => false end.

Definition isReplaceRaftNodes (fx : Effect) : bool :=
  match fx with FxReplaceRaftNodes _ => true | _ => false end.

End Spec.

(** ** Concrete daemons and requests *)
Module Samples.
Import GoStrings Daemon.

(** A trust check by lookup: a certificate is trusted when the set has an
    entry under its raw bytes, which then name it. *)
Definition lookupTrust (cert : Certificate) (trustSet : gmap string Certificate)
    (net : CertInfo) (ca : bool) : bool * string :=
  match trustSet !! Raw cert with
  | Some _ => (true, Raw cert)
  | None => (false, "")
  end.

Definition externals : Externals :=
  {| CheckTrustState := lookupTrust;
     isClusterNotification :=
       fun r => String.eqb (HeaderGet r "User-Agent") "incus-cluster-notifier";
     LookupId := fun uid => if uid =? 0 then inr "root"
                            else inl (ErrorString "unknown userid");
     Debug := false;
     IsJSONRequest := fun _ => false;
     Quote := fun m => "'" +:+ m +:+ "'";
     RenderErr := fun _ => None;
     SmartError := fun e => ErrorResponse 500 (Some (Error e));
     TimeString := fun _ => "t";
     VarPath := fun name => "/var/lib/incus/" +:+ name;
     HeaderForwardedAddress := "X-Incus-forwarded-address";
     HeaderForwardedUsername := "X-Incus-forwarded-username";
     HeaderForwardedProtocol := "X-Incus-forwarded-protocol" |}.

Definition clientCert : Certificate := {| Raw := "client-1" |}.
Definition serverCert : Certificate := {| Raw := "server-1" |}.
Definition strangerCert : Certificate := {| Raw := "stranger" |}.

Definition certificates (t : CertType) : gmap string Certificate :=
  match t with
  | TypeClient => {[ "client-1" := clientCert ]}
  | TypeServer => {[ "server-1" := serverCert ]}
  | TypeMetrics => ∅
  end.

(** The admin check of the tls authorizer: the access record of the
    request context. *)
Definition contextAdmin (r : Request) : bool :=
  match CtxAccess (Ctx r) with
  | Some ua => Admin ua
  | None => false
  end.

Definition daemon (setup shutdown : bool)
    (projects : option (gmap string (list string))) : Daemon :=
  {| clientCertsCertificates := certificates;
     clientCertsProjects := projects;
     networkCert := {| CertPEM := "network" |};
     oidcVerifier := None;
     trustCACertificates := false;
     userIsAdmin := contextAdmin;
     setupChanClosed := setup;
     shutdownCancelled := shutdown;
     timeSkew := false;
     dbCluster := true;
     raftNodes := [] |}.

Definition noContext : Context :=
  {| ConnCred := inl (ErrorString "no credentials");
     CtxUsername := None; CtxProtocol := None; CtxAccess := None;
     CtxForwardedAddress := None; CtxForwardedUsername := None;
     CtxForwardedProtocol := None |}.

Definition request (addr : string) (tls : option (list Certificate))
    (method path : string) (header : gmap string string) : Request :=
  {| RemoteAddr := addr; TLS := tls; Method := method; URLPath := path;
     Header := header; BodyErr := None; Ctx := noContext |}.

Definition ok (r : Request) : Response := HandlerResponse 200 "{}".

Definition action (untrusted : bool) : APIEndpointAction :=
  {| Handler := Some ok; AccessHandler := None; AllowUntrusted := untrusted |}.

Definition endpoint (path : string) (untrusted : bool) : APIEndpoint :=
  {| Name := path; Path := path; Aliases := [];
     Get := action untrusted; Head := action untrusted; Put := action untrusted;
     Post := action untrusted; Delete := action untrusted;
     Patch := action untrusted |}.

Definition remote : string := "10.0.0.2:4000".

Definition instances : APIEndpoint := endpoint "instances" false.
Definition publicEndpoint : APIEndpoint := endpoint "public" true.

Definition clientGet : Request :=
  request remote (Some [clientCert]) "GET" "/1.0/instances" ∅.

Definition clientPut : Request :=
  request remote (Some [clientCert]) "PUT" "/1.0/instances" ∅.


Definition strangerGet : Request :=
  request remote (Some [strangerCert]) "GET" "/1.0/public" ∅.

Definition strangerPut : Request :=
  request remote (Some [strangerCert]) "PUT" "/1.0/public" ∅.

(** A request over the Unix socket, from the peer with uid 0. *)
Definition unixGet : Request :=
  {| RemoteAddr := "@"; TLS := None; Method := "GET";
     URLPath := "/internal/ready"; Header := ∅; BodyErr := None;
     Ctx := {| ConnCred := inr 0;
               CtxUsername := None; CtxProtocol := None; CtxAccess := None;
               CtxForwardedAddress := None; CtxForwardedUsername := None;
               CtxForwardedProtocol := None |} |}.

Definition restriction : option (gmap string (list string)) :=
  Some {[ "client-1" := ["p1"; "p2"] ]}.

Definition member (raftID : Z) : APIHeartbeatMember :=
  {| MemberAddress := "10.0.0.1:8443"; MemberOnline := true;
     MemberRaftID := raftID; MemberRaftRole := 0; MemberName := "n1" |}.

Definition heartbeat (time : Z) (members : list (Z * APIHeartbeatMember))
  : APIHeartbeat :=
  {| Time := time; Members := members; FullStateList := false |}.

Definition clock (t : Z) : HeartbeatEnv :=
  {| now := t; replaceRaftNodesErr := None; heartbeatRestart := false |}.

(** A daemon that saw a skewed heartbeat while its cluster database was
    not open. *)
Definition skewedNoCluster : Daemon :=
  {| clientCertsCertificates := certificates;
     clientCertsProjects := None;
     networkCert := {| CertPEM := "network" |};
     oidcVerifier := None;
     trustCACertificates := false;
     userIsAdmin := contextAdmin;
     setupChanClosed := false;
     shutdownCancelled := false;
     timeSkew := true;
     dbCluster := false;
     raftNodes := [] |}.

Definition mountsWork : MountEnv :=
  {| mountTmpfsErr := None; mountSharedErr := None |}.

Definition freshHost : MountState :=
  {| SharedMountsSetup := false; mountPoints := ∅ |}.

End Samples.

(** ** [project.go]: effective projects and network access *)
Module ProjectRecords.
Import GoStrings Project Daemon.

(** [api.Project], the fields the package reads. *)
Record ApiProject := {
  ProjectName : string;
  ProjectConfig : gmap string string
}.

(** [cluster.Project], the database record of a project. *)
Record DbProject := { DbProjectName : string }.

(** [config[key]] on a Go map: the empty string for a missing key. *)
Definition ConfigGet (config : gmap string string) (key : string) : string :=
  default "" (config !! key).

(** Code of the repository that is outside the sources, taken as
    parameters: [util.IsTrue], [util.IsFalseOrEmpty],
    [util.SplitNTrimSpace], the volume type constants of package [db],
    [cluster.GetProject] and [ToAPI] inside a transaction, the errors (if
    any) of beginning and of committing the transaction of
    [c.Transaction], and the [%q] verb. *)
Record ProjectEnv := {
  IsTrue : string -> bool;
  IsFalseOrEmpty : string -> bool;
  SplitNTrimSpace : string -> string -> Z -> bool -> list string;
  StoragePoolVolumeTypeImage : Z;
  StoragePoolVolumeTypeCustom : Z;
  GetProject : string -> error + DbProject;
  ToAPI : DbProject -> error + ApiProject;
  TxBeginErr : option error;
  TxCommitErr : option error;
  QuoteName : string -> string
}.

Section Records.
Variable E : ProjectEnv.

(** StorageVolumeProjectFromRecord returns the project name to use for
    the volume based on the supplied project. *)
Definition StorageVolumeProjectFromRecord (p : ApiProject) (volumeType : Z)
  : string :=
  if volumeType =? StoragePoolVolumeTypeImage E then Default
  else if negb (volumeType =? StoragePoolVolumeTypeCustom E) then ProjectName p
  else if IsTrue E (ConfigGet (ProjectConfig p) "features.storage.volumes")
  then ProjectName p
  else Default.

(** StorageBucketProjectFromRecord. *)
Definition StorageBucketProjectFromRecord (p : ApiProject) : string :=
  if IsTrue E (ConfigGet (ProjectConfig p) "features.storage.buckets")
  then ProjectName p
  else Default.

(** NetworkProjectFromRecord. *)
Definition NetworkProjectFromRecord (p : ApiProject) : string :=
  if IsTrue E (ConfigGet (ProjectConfig p) "features.networks")
  then ProjectName p
  else Default.

(** ProfileProjectFromRecord. *)
Definition ProfileProjectFromRecord (p : ApiProject) : string :=
  if IsTrue E (ConfigGet (ProjectConfig p) "features.profiles")
  then ProjectName p
  else Default.

(** NetworkZoneProjectFromRecord. *)
Definition NetworkZoneProjectFromRecord (p : ApiProject) : string :=
  if IsTrue E (ConfigGet (ProjectConfig p) "features.networks.zones")
  then ProjectName p
  else Default.

(** [c.Transaction(ctx, f)]: the error of [f] is returned as it is, and
    what [f] assigned counts when the transaction commits. *)
Definition Transaction {A : Type} (f : error + A) : error + A :=
  match TxBeginErr E with
  | Some err => inl err
  | None =>
      match f with
      | inl err => inl err
      | inr a =>
          match TxCommitErr E with
          | Some err => inl err
          | None => inr a
          end
      end
  end.

(** The transaction that loads a project and its configuration. *)
Definition loadProject (projectName : string) : error + ApiProject :=
  Transaction
    match GetProject E projectName with
    | inl err => inl err
    | inr dbProject => ToAPI E dbProject
    end.

(** [fmt.Errorf("Failed to load project %q: %w", projectName, err)]. *)
Definition failedToLoad (projectName : string) (err : error) : error :=
  ErrorString ("Failed to load project " +:+ QuoteName E projectName
               +:+ ": " +:+ Error err).

(** StorageVolumeProject returns the project name to use for the volume
    based on the requested project. *)
Definition StorageVolumeProject (projectName : string) (volumeType : Z)
  : error + string :=
  if volumeType =? StoragePoolVolumeTypeImage E then inr Default
  else if negb (volumeType =? StoragePoolVolumeTypeCustom E) then inr projectName
  else
    match loadProject projectName with
    | inl err => inl (failedToLoad projectName err)
    | inr project => inr (StorageVolumeProjectFromRecord project volumeType)
    end.

(** StorageBucketProject. *)
Definition StorageBucketProject (projectName : string) : error + string :=
  match loadProject projectName with
  | inl err => inl (failedToLoad projectName err)
  | inr p => inr (StorageBucketProjectFromRecord p)
  end.

(** NetworkProject: the effective project name and the requested
    project's info. *)
Definition NetworkProject (projectName : string) : error + string * ApiProject :=
  match loadProject projectName with
  | inl err => inl (failedToLoad projectName err)
  | inr p => inr (NetworkProjectFromRecord p, p)
  end.

(** NetworkZoneProject. *)
Definition NetworkZoneProject (projectName : string)
  : error + string * ApiProject :=
  match loadProject projectName with
  | inl err => inl (failedToLoad projectName err)
  | inr p => inr (NetworkZoneProjectFromRecord p, p)
  end.

(** ProfileProject returns the effective project to use for the profile:
    the requested project's info when it has "features.profiles", the
    default project's info otherwise. *)
Definition ProfileProject (projectName : string) : error + ApiProject :=
  Transaction
  match GetProject E projectName with
  | inl err =>
      inl (ErrorString ("Failed loading project " +:+ QuoteName E projectName
                        +:+ ": " +:+ Error err))
  | inr dbProject =>
      match ToAPI E dbProject with
      | inl err =>
          inl (ErrorString ("Failed loading config for project "
                            +:+ QuoteName E projectName +:+ ": " +:+ Error err))
      | inr p =>
          let effectiveProjectName := ProfileProjectFromRecord p in
          let reload :=
            if String.eqb effectiveProjectName Default then
              match GetProject E effectiveProjectName with
              | inl err =>
                  inl (ErrorString ("Failed loading project "
                                    +:+ QuoteName E effectiveProjectName
                                    +:+ ": " +:+ Error err))
              | inr dbDefault => inr dbDefault
              end
            else inr dbProject in
          match reload with
          | inl err => inl err
          | inr dbProject' =>
              match ToAPI E dbProject' with
              | inl err =>
                  inl (ErrorString ("Failed loading config for project "
                                    +:+ QuoteName E (DbProjectName dbProject')
                                    +:+ ": " +:+ Error err))
              | inr p' => inr p'
              end
          end
      end
  end.

(** NetworkAllowed returns whether access is allowed to a particular
    network based on projectConfig. *)
Definition NetworkAllowed (reqProjectConfig : gmap string string)
    (networkName : string) (isManaged : bool) : bool :=
  if IsFalseOrEmpty E (ConfigGet reqProjectConfig "restricted") then true
  else if String.eqb (ConfigGet reqProjectConfig "restricted.devices.nic") "block"
  then false
  else if ValueInSlice (ConfigGet reqProjectConfig "restricted.devices.nic")
            ["managed"; ""]
          && negb isManaged
  then false
  else if String.eqb (ConfigGet reqProjectConfig "restricted.networks.access") ""
  then true
  else
    let allowedRestrictedNetworks :=
      SplitNTrimSpace E (ConfigGet reqProjectConfig "restricted.networks.access")
        "," (-1) false in
    ValueInSlice networkName allowedRestrictedNetworks.

End Records.

End ProjectRecords.

(** ** The daemon core: access handlers, member state and the refresh task *)
Module Refresh.
Import GoStrings Daemon.

(** allowAuthenticated is an AccessHandler which allows all requests. *)
Definition allowAuthenticated (d : Daemon) (r : Request) : Response :=
  EmptySyncResponse.

(** allowProjectPermission is a wrapper to check access against the
    project. [projectParam] and the authorizer's [UserHasPermission] are
    outside the sources and taken as parameters. *)
Definition allowProjectPermission (projectParam : Request -> string)
    (UserHasPermission : Request -> string -> string -> bool)
    (d : Daemon) (r : Request) : Response :=
  if userIsAdmin d r then EmptySyncResponse
  else
    let projectName := projectParam r in
    if negb (UserHasPermission r projectName "") then Forbidden None
    else EmptySyncResponse.

(** Observers of the events of a request. *)
Definition isHandlerEvent (e : Event) : bool :=
  match e with EvHandler _ => true | _ => false end.

Definition isAccessEvent (e : Event) : bool :=
  match e with EvAccessHandler _ => true | _ => false end.

Definition isRenderEvent (e : Event) : bool :=
  match e with EvRender _ => true | _ => false end.

(** [instance.Instance], as far as [numRunningInstances] looks. *)
Record Instance := { InstanceName : string; IsRunning : bool }.

(** numRunningInstances returns the number of running instances. *)
Fixpoint numRunningInstances (instances : list Instance) : Z :=
  match instances with
  | [] => 0
  | instance :: rest =>
      let count := numRunningInstances rest in
      if IsRunning instance then count + 1 else count
  end.

(** A heartbeat together with its [Version] field. *)
Record VersionedHeartbeat := {
  Heartbeat : APIHeartbeat;
  VersionSchema : Z;
  VersionAPIExtensions : Z
}.

(** The zero value of [APIHeartbeatMember], which indexing a Go map gives
    for a missing key. *)
Definition zeroMember : APIHeartbeatMember :=
  {| MemberAddress := ""; MemberOnline := false; MemberRaftID := 0;
     MemberRaftRole := 0; MemberName := "" |}.

(** [hb.Members[id]]. *)
Definition memberAt (hb : APIHeartbeat) (id : Z) : APIHeartbeatMember :=
  default zeroMember ((list_to_map (Members hb) : gmap Z APIHeartbeatMember) !! id).

(** hasMemberStateChanged returns true if the number of members, their
    addresses or state has changed. [lastNodeList] is [d.lastNodeList]. *)
Definition hasMemberStateChanged (lastNodeList : option APIHeartbeat)
    (heartbeatData : APIHeartbeat) : bool :=
  match lastNodeList with
  | None => true
  | Some last =>
      if negb (Nat.eqb (length (Members last)) (length (Members heartbeatData)))
      then true
      else
        existsb
          (fun '(lastMemberID, lastMember) =>
             negb (String.eqb (MemberAddress (memberAt heartbeatData lastMemberID))
                     (MemberAddress lastMember))
             || negb (Bool.eqb (MemberOnline (memberAt heartbeatData lastMemberID))
                        (MemberOnline lastMember)))
          (Members last)
  end.

(** What [nodeRefreshTask] calls, in order. *)
Inductive RefreshEffect :=
| RxMaybeUpdate
| RxUpdateOVNChassis
| RxUpdateCertificateCache
| RxGoEventsUpdateListeners
| RxLock                                   (* d.clusterMembershipMutex.Lock() *)
| RxRebalanceMemberRoles (unavailableMembers : list string)
| RxUpgradeNodesWithoutRaftRole
| RxUnlock
| RxWait.                                  (* wg.Wait() *)

(** What one call of [nodeRefreshTask] finds outside the daemon: the node
    ID of the cluster database, the errors of [cluster.MaybeUpdate] and of
    [networkUpdateOVNChassis], the configured maxima, and the raft role
    constants of package [db]. *)
Record RefreshEnv := {
  nodeID : Z;
  maybeUpdateErr : option error;
  updateOVNChassisErr : option error;
  MaxVoters : Z;
  MaxStandBy : Z;
  RaftVoter : Z;
  RaftStandBy : Z;
  RaftSpare : Z
}.

(** What the loop over the members finds. *)
Record RoleCount := {
  isDegraded : bool;
  hasNodesNotPartOfRaft : bool;
  onlineVoters : Z;
  onlineStandbys : Z
}.

Fixpoint countRoles (env : RefreshEnv) (members : list (Z * APIHeartbeatMember))
    (acc : RoleCount) : RoleCount :=
  match members with
  | [] => acc
  | (_, node) :: rest =>
      let role := MemberRaftRole node in
      let acc' :=
        if MemberOnline node then
          let counted :=
            if role =? RaftVoter env then
              {| isDegraded := isDegraded acc;
                 hasNodesNotPartOfRaft := hasNodesNotPartOfRaft acc;
                 onlineVoters := onlineVoters acc + 1;
                 onlineStandbys := onlineStandbys acc |}
            else if role =? RaftStandBy env then
              {| isDegraded := isDegraded acc;
                 hasNodesNotPartOfRaft := hasNodesNotPartOfRaft acc;
                 onlineVoters := onlineVoters acc;
                 onlineStandbys := onlineStandbys acc + 1 |}
            else acc in
          if MemberRaftID node =? 0 then
            {| isDegraded := isDegraded counted;
               hasNodesNotPartOfRaft := true;
               onlineVoters := onlineVoters counted;
               onlineStandbys := onlineStandbys counted |}
          else counted
        else if negb (role =? RaftSpare env) then
          {| isDegraded := true;
             hasNodesNotPartOfRaft := hasNodesNotPartOfRaft acc;
             onlineVoters := onlineVoters acc;
             onlineStandbys := onlineStandbys acc |}
        else acc in
      countRoles env rest acc'
  end.

(** The part of [nodeRefreshTask] that checks whether roles need an
    update. *)
Definition roleUpdates (env : RefreshEnv) (heartbeatData : APIHeartbeat)
    (isLeader : bool) (unavailableMembers : option (list string))
  : list RefreshEffect :=
  match unavailableMembers with
  | Some unavailable =>
      if isLeader && (1 <? Z.of_nat (length (Members heartbeatData))) then
        let c := countRoles env (Members heartbeatData)
                   {| isDegraded := false; hasNodesNotPartOfRaft := false;
                      onlineVoters := 0; onlineStandbys := 0 |} in
        (if isDegraded c || (onlineVoters c <? MaxVoters env)
            || (onlineStandbys c <? MaxStandBy env)
         then [RxLock; RxRebalanceMemberRoles unavailable; RxUnlock]
         else [])
        ++ (if hasNodesNotPartOfRaft c
            then [RxLock; RxUpgradeNodesWithoutRaftRole; RxUnlock]
            else [])
      else []
  | None => []
  end.

(** nodeRefreshTask is run when a full state heartbeat is sent (on the
    leader) or received (by a non-leader member). It returns the new
    [d.lastNodeList]. *)
Definition nodeRefreshTask (env : RefreshEnv) (d : Daemon)
    (lastNodeList : option VersionedHeartbeat)
    (heartbeatData : VersionedHeartbeat) (isLeader : bool)
    (unavailableMembers : option (list string))
  : option VersionedHeartbeat * list RefreshEffect :=
  let hb := Heartbeat heartbeatData in
  if negb (dbCluster d) || (nodeID env =? 0) then (lastNodeList, [])
  else if negb (FullStateList hb) || (Z.of_nat (length (Members hb)) <=? 0)
  then (lastNodeList, [])
  else
    let versionChanged :=
      match lastNodeList with
      | None => true
      | Some last =>
          negb (VersionAPIExtensions last =? VersionAPIExtensions heartbeatData)
          || negb (VersionSchema last =? VersionSchema heartbeatData)
      end in
    match (if versionChanged then maybeUpdateErr env else None) with
    | Some _ => (lastNodeList, [RxMaybeUpdate])
    | None =>
        let fx0 := if versionChanged then [RxMaybeUpdate] else [] in
        let stateChangeTaskFailure :=
          match updateOVNChassisErr env with Some _ => true | None => false end in
        let fx1 :=
          if hasMemberStateChanged (option_map Heartbeat lastNodeList) hb
          then [RxUpdateCertificateCache] else [] in
        let lastNodeList' :=
          if negb stateChangeTaskFailure then Some heartbeatData
          else lastNodeList in
        (lastNodeList',
         fx0 ++ [RxUpdateOVNChassis] ++ fx1 ++ [RxGoEventsUpdateListeners]
           ++ roleUpdates env hb isLeader unavailableMembers ++ [RxWait])
    end.

(** The lock discipline of a trace: the membership mutex is taken only
    when free, released only when held, free at the end, and held around
    every change of roles. *)
Fixpoint lockDiscipline (held : bool) (fx : list RefreshEffect) : bool :=
  match fx with
  | [] => negb held
  | RxLock :: rest => negb held && lockDiscipline true rest
  | RxUnlock :: rest => held && lockDiscipline false rest
  | RxRebalanceMemberRoles _ :: rest => held && lockDiscipline held rest
  | RxUpgradeNodesWithoutRaftRole :: rest => held && lockDiscipline held rest
  | _ :: rest => lockDiscipline held rest
  end.

Definition isRoleChange (fx : RefreshEffect) : bool :=
  match fx with
  | RxRebalanceMemberRoles _ | RxUpgradeNodesWithoutRaftRole => true
  | _ => false
  end.

End Refresh.

(** ** Observers of heartbeat effects *)
Module Observers.
Import Daemon.

Definition isRefreshSpawn (fx : Effect) : bool :=
  match fx with FxGoNodeRefreshTask _ _ => true | _ => false end.

Definition isHeartbeatRestart (fx : Effect) : bool :=
  match fx with FxHeartbeatRestart => true | _ => false end.

(** The warnings written and resolved alternate: no warning is written
    while one is [pending], none is resolved while none is. *)
Fixpoint warningsAlternate (pending : bool) (fx : list Effect) : bool :=
  match fx with
  | [] => true
  | FxUpsertWarningLocalNode _ _ :: rest =>
      negb pending && warningsAlternate true rest
  | FxResolveWarningsByLocalNodeAndType _ :: rest =>
      pending && warningsAlternate false rest
  | _ :: rest => warningsAlternate pending rest
  end.

End Observers.

(** ** More concrete data: projects, an OIDC verifier, heartbeats *)
Module MoreSamples.
Import GoStrings Project Daemon ProjectRecords Refresh Samples.

(** A database with the projects "default" and "web"; "web" has its own
    profiles and storage volumes. *)
Definition webConfig : gmap string string :=
  {[ "features.profiles" := "true"; "features.storage.volumes" := "true" ]}.

Definition projectEnv : ProjectEnv :=
  {| IsTrue := fun v => ValueInSlice v ["true"; "1"; "yes"; "on"];
     IsFalseOrEmpty := fun v => ValueInSlice v [""; "false"; "0"; "no"; "off"];
     SplitNTrimSpace := fun v sep n _ => SplitN v sep n;
     StoragePoolVolumeTypeImage := 1;
     StoragePoolVolumeTypeCustom := 2;
     GetProject := fun name =>
       if ValueInSlice name ["default"; "web"]
       then inr {| DbProjectName := name |}
       else inl (ErrorString "Project not found");
     ToAPI := fun db =>
       inr {| ProjectName := DbProjectName db;
              ProjectConfig := if String.eqb (DbProjectName db) "web"
                               then webConfig else ∅ |};
     TxBeginErr := None;
     TxCommitErr := None;
     QuoteName := fun name => "'" +:+ name +:+ "'" |}.

Definition webProject : ApiProject :=
  {| ProjectName := "web"; ProjectConfig := webConfig |}.

Definition defaultProject : ApiProject :=
  {| ProjectName := "default"; ProjectConfig := ∅ |}.

(** A restricted project that may use any NIC and any network. *)
Definition openConfig : gmap string string :=
  {[ "restricted" := "true"; "restricted.devices.nic" := "allow" ]}.

(** A verifier that takes requests with an Authorization header and
    accepts one token. *)
Definition verifier : Verifier :=
  {| IsRequest := fun r => negb (String.eqb (HeaderGet r "Authorization") "");
     Auth := fun r =>
       if String.eqb (HeaderGet r "Authorization") "Bearer good"
       then inr "alice"
       else inl (AuthError "invalid token") |}.

Definition oidcDaemon : Daemon :=
  {| clientCertsCertificates := certificates;
     clientCertsProjects := None;
     networkCert := {| CertPEM := "network" |};
     oidcVerifier := Some verifier;
     trustCACertificates := false;
     userIsAdmin := contextAdmin;
     setupChanClosed := true;
     shutdownCancelled := false;
     timeSkew := false;
     dbCluster := true;
     raftNodes := [] |}.

(** A client with a trusted certificate and a bad token. *)
Definition badTokenGet : Request :=
  request remote (Some [clientCert]) "GET" "/1.0/instances"
    {[ "Authorization" := "Bearer bad" ]}.

(** An untrusted client that says it is authenticated; the server stored
    its header under the canonical name. *)
Definition claimingGet : Request :=
  request remote (Some [strangerCert]) "GET" "/1.0/public"
    {[ "X-Incus-Authenticated" := "1" ]}.

(** A request forwarded by a cluster member. *)
Definition forwardedGet : Request :=
  request remote (Some [serverCert]) "GET" "/1.0/instances"
    {[ "X-Incus-Forwarded-Address" := "192.0.2.7:5000";
       "X-Incus-Forwarded-Username" := "alice";
       "X-Incus-Forwarded-Protocol" := "oidc" ]}.

Definition clientGetAdmitted : Request :=
  WithContext clientGet
    (authContext externals clientGet "client-1" "tls"
       {| Admin := true; Projects := ∅ |}).

Definition unixGetAdmitted : Request :=
  WithContext unixGet
    (authContext externals unixGet "root" "unix"
       {| Admin := true; Projects := ∅ |}).

Definition failingClock : HeartbeatEnv :=
  {| now := 0; replaceRaftNodesErr := Some (ErrorString "database is locked");
     heartbeatRestart := false |}.

Definition offlineVoter : APIHeartbeatMember :=
  {| MemberAddress := "10.0.0.2:8443"; MemberOnline := false;
     MemberRaftID := 2; MemberRaftRole := 0; MemberName := "n2" |}.

Definition twoMembers : APIHeartbeat :=
  {| Time := 0; Members := [(1, member 1); (2, offlineVoter)];
     FullStateList := true |}.

(** The same members, visited in another order. *)
Definition twoMembersReordered : APIHeartbeat :=
  {| Time := 5; Members := [(2, offlineVoter); (1, member 1)];
     FullStateList := true |}.

Definition versioned (hb : APIHeartbeat) : VersionedHeartbeat :=
  {| Heartbeat := hb; VersionSchema := 1; VersionAPIExtensions := 1 |}.

Definition refreshEnv (ovn : option error) : RefreshEnv :=
  {| nodeID := 1; maybeUpdateErr := None; updateOVNChassisErr := ovn;
     MaxVoters := 3; MaxStandBy := 2;
     RaftVoter := 0; RaftStandBy := 1; RaftSpare := 2 |}.

Definition sharedFails : MountEnv :=
  {| mountTmpfsErr := None;
     mountSharedErr := Some (ErrorString "operation not permitted") |}.

End MoreSamples.

(** * Properties *)

(** ** Byte strings and the separator *)
Module StringFacts.
Import GoStrings.

(** stdpp keeps [append] from simplifying; its two equations. *)
Lemma append_nil s : "" +:+ s = s.
Proof. reflexivity. Qed.

Lemma append_cons x a s : String x a +:+ s = String x (a +:+ s).
Proof. reflexivity. Qed.

Lemma prefix_one c s :
  String.prefix (one c) s =
  match s with
  | EmptyString => false
  | String b _ => if ascii_dec c b then true else false
  end.
Proof.
  destruct s as [|b s']; simpl; [reflexivity|].
  destruct (ascii_dec c b); [destruct s'|]; reflexivity.
Qed.

Lemma indexFrom_absent c s pos :
  hasByte c s = false -> indexFrom (one c) s pos = -1.
Proof.
  revert pos. induction s as [|b s' IH]; intros pos H.
  - reflexivity.
  - cbn [indexFrom]. rewrite prefix_one. cbn [hasByte] in H.
    destruct (ascii_dec c b); [discriminate|]. apply IH, H.
Qed.

Lemma indexFrom_present c a b pos :
  hasByte c a = false ->
  indexFrom (one c) (a +:+ String c b) pos = pos + len a.
Proof.
  revert pos. induction a as [|x a' IH]; intros pos H.
  - rewrite append_nil. cbn [indexFrom]. rewrite prefix_one.
    destruct (ascii_dec c c); [|congruence]. unfold len. simpl. lia.
  - rewrite append_cons. cbn [indexFrom]. rewrite prefix_one. cbn [hasByte] in H.
    destruct (ascii_dec c x); [discriminate|].
    rewrite IH by exact H. unfold len. cbn [String.length]. lia.
Qed.

Lemma hasByte_split c s :
  hasByte c s = true ->
  exists a b, s = a +:+ String c b /\ hasByte c a = false.
Proof.
  induction s as [|x s' IH]; intros H; [discriminate|].
  cbn [hasByte] in H. destruct (ascii_dec c x) as [->|Hne].
  - exists EmptyString, s'. split; reflexivity.
  - destruct (IH H) as (a & b & -> & Ha).
    exists (String x a), b. split; [reflexivity|].
    cbn [hasByte]. destruct (ascii_dec c x); [contradiction|exact Ha].
Qed.

Lemma Contains_hasByte c s : Contains s (one c) = hasByte c s.
Proof.
  unfold Contains, Index. destruct (hasByte c s) eqn:H.
  - destruct (hasByte_split _ _ H) as (a & b & -> & Ha).
    rewrite indexFrom_present by exact Ha. unfold len.
    apply Z.leb_le. lia.
  - rewrite indexFrom_absent by exact H. reflexivity.
Qed.

Lemma lastIndexFrom_absent c s pos acc :
  hasByte c s = false -> lastIndexFrom (one c) s pos acc = acc.
Proof.
  revert pos acc. induction s as [|b s' IH]; intros pos acc H.
  - reflexivity.
  - cbn [lastIndexFrom]. rewrite prefix_one. cbn [hasByte] in H.
    destruct (ascii_dec c b); [discriminate|]. apply IH, H.
Qed.

Lemma lastIndexFrom_last c a b pos acc :
  hasByte c b = false ->
  lastIndexFrom (one c) (a +:+ String c b) pos acc = pos + len a.
Proof.
  revert pos acc. induction a as [|x a' IH]; intros pos acc H.
  - rewrite append_nil. cbn [lastIndexFrom]. rewrite prefix_one.
    destruct (ascii_dec c c); [|congruence].
    rewrite lastIndexFrom_absent by exact H. unfold len. simpl. lia.
  - rewrite append_cons. cbn [lastIndexFrom]. rewrite IH by exact H.
    unfold len. cbn [String.length]. lia.
Qed.

Lemma substring_prefix a s :
  String.substring 0 (String.length a) (a +:+ s) = a.
Proof.
  induction a as [|x a' IH].
  - rewrite append_nil. destruct s; reflexivity.
  - rewrite append_cons. simpl. rewrite IH. reflexivity.
Qed.

Lemma substring_whole s : String.substring 0 (String.length s) s = s.
Proof. induction s as [|x s' IH]; simpl; [reflexivity | now rewrite IH]. Qed.

Lemma substring_skip a s m :
  String.substring (String.length a) m (a +:+ s) = String.substring 0 m s.
Proof.
  induction a as [|x a' IH]; [reflexivity|].
  rewrite append_cons. simpl. exact IH.
Qed.

Lemma length_append a b :
  String.length (a +:+ b) = (String.length a + String.length b)%nat.
Proof.
  induction a as [|x a' IH]; [reflexivity|].
  rewrite append_cons. simpl. now rewrite IH.
Qed.

Lemma append_one_assoc c a b : (a +:+ one c) +:+ b = a +:+ String c b.
Proof.
  induction a as [|x a' IH]; [reflexivity|].
  rewrite !append_cons. now rewrite IH.
Qed.

(** Cutting [a ++ c ++ b] at the index of [c] gives back [a] and [b]. *)
Lemma slice_before c a b :
  slice (a +:+ String c b) 0 (len a) = a.
Proof.
  unfold slice, len. rewrite Z.sub_0_r, Nat2Z.id. simpl Z.to_nat.
  apply substring_prefix.
Qed.

Lemma sliceFrom_after c a b :
  sliceFrom (a +:+ String c b) (len a + len (one c)) = b.
Proof.
  unfold sliceFrom, slice, len. rewrite length_append. cbn [String.length one].
  replace (Z.to_nat (Z.of_nat (String.length a) + Z.of_nat 1))
    with (String.length (a +:+ one c)) by (rewrite length_append; simpl; lia).
  rewrite <- append_one_assoc.
  rewrite substring_skip.
  replace (Z.to_nat _) with (String.length b).
  - apply substring_whole.
  - lia.
Qed.

End StringFacts.

(** ** Project-prefixed names *)
Module ProjectProofs.
Import GoStrings Project StringFacts.

Example Instance_default : Instance "default" "c1" = "c1".
Proof. reflexivity. Qed.

Example Instance_prefixed : Instance "my_proj" "c1" = "my_proj_c1".
Proof. reflexivity. Qed.

Example InstanceParts_last : InstanceParts "my_proj_c1" = ("my_proj", "c1").
Proof. reflexivity. Qed.

Example InstanceParts_plain : InstanceParts "c1" = ("default", "c1").
Proof. reflexivity. Qed.

Example InstanceParts_empty_project : InstanceParts (Instance "" "c1") = ("", "c1").
Proof. reflexivity. Qed.

Example StorageVolumeParts_first :
  StorageVolumeParts "p_vol_a" = Some ("p", "vol_a").
Proof. reflexivity. Qed.

Example StorageVolumeParts_panics : StorageVolumeParts "vol" = None.
Proof. reflexivity. Qed.

Example StorageVolumeParts_empty : StorageVolumeParts "" = None.
Proof. reflexivity. Qed.

Example SplitN_all : SplitN "a_b_c" "_" (-1) = ["a"; "b"; "c"].
Proof. reflexivity. Qed.

Example SplitN_two : SplitN "a_b_c" "_" 2 = ["a"; "b_c"].
Proof. reflexivity. Qed.

Example LastIndex_empty_sub : LastIndex "abc" "" = 3.
Proof. reflexivity. Qed.

Lemma separator_one : separator = one "_"%char.
Proof. reflexivity. Qed.

Lemma len_nonneg s : 0 <= len s.
Proof. unfold len. lia. Qed.

(** The last separator of a prefixed name is the one [Instance] wrote. *)
Lemma LastIndex_prefixed p n :
  Contains n separator = false ->
  LastIndex (p +:+ separator +:+ n) separator = len p.
Proof.
  intros H. rewrite separator_one, Contains_hasByte in H.
  unfold LastIndex. rewrite separator_one.
  change (one "_" +:+ n) with (String "_"%char n).
  rewrite lastIndexFrom_last by exact H. lia.
Qed.

Lemma LastIndex_unprefixed n :
  Contains n separator = false -> LastIndex n separator = -1.
Proof.
  intros H. rewrite separator_one, Contains_hasByte in H.
  unfold LastIndex. rewrite separator_one.
  apply lastIndexFrom_absent, H.
Qed.

(** C9: for every project name [p] and every instance name [n] without
    the separator '_', [InstanceParts (Instance p n)] is exactly [(p, n)]:
    for [p = "default"], where [Instance] leaves [n] unprefixed, and for
    every other [p], also one containing '_', because [InstanceParts]
    cuts at the last separator. *)
Theorem InstanceParts_Instance (p n : string) :
  Contains n separator = false ->
  InstanceParts (Instance p n) = (p, n).
Proof.
  intros H. unfold Instance.
  destruct (String.eqb p Default) eqn:E; cbn [negb].
  - apply String.eqb_eq in E. subst p.
    unfold InstanceParts. rewrite LastIndex_unprefixed by exact H.
    reflexivity.
  - unfold InstanceParts. rewrite LastIndex_prefixed by exact H.
    pose proof (len_nonneg p) as Hp.
    destruct (len p <? 0) eqn:L; [apply Z.ltb_lt in L; lia|].
    change (separator +:+ n) with (String "_"%char n).
    rewrite slice_before.
    change (len p + 1) with (len p + len (one "_"%char)).
    rewrite sliceFrom_after. reflexivity.
Qed.

(** The round trip at a project name that itself contains '_'. *)
Lemma InstanceParts_Instance_witness :
  InstanceParts (Instance "my_proj" "c1") = ("my_proj", "c1").
Proof. apply (InstanceParts_Instance "my_proj" "c1"). reflexivity. Defined.

Lemma Contains_sep s : Contains s "_" = hasByte "_" s.
Proof. exact (Contains_hasByte "_" s). Qed.

Lemma Index_sep_absent s : hasByte "_" s = false -> Index s "_" = -1.
Proof. exact (indexFrom_absent "_" s 0). Qed.

Lemma Index_sep_present a b :
  hasByte "_" a = false -> Index (a +:+ String "_" b) "_" = len a.
Proof.
  intros H. unfold Index.
  exact (eq_trans (indexFrom_present "_" a b 0 H) (Z.add_0_l _)).
Qed.

Lemma SplitN_two_absent s :
  hasByte "_" s = false -> SplitN s "_" 2 = [s].
Proof.
  intros H. unfold SplitN. cbn [Z.eqb String.eqb Ascii.eqb Bool.eqb Z.ltb Z.compare].
  destruct (Z.to_nat (Z.min 2 (len s + 1) - 1)) as [|k]; [reflexivity|].
  cbn [splitLoop]. rewrite Index_sep_absent by exact H. reflexivity.
Qed.

Lemma SplitN_two_present a b :
  hasByte "_" a = false ->
  SplitN (a +:+ String "_" b) "_" 2 = [a; b].
Proof.
  intros H. unfold SplitN. cbn [Z.eqb String.eqb Ascii.eqb Bool.eqb Z.ltb Z.compare].
  assert (L : len (a +:+ String "_" b) = len a + 1 + len b).
  { unfold len. rewrite length_append. cbn [String.length]. lia. }
  pose proof (len_nonneg a). pose proof (len_nonneg b).
  replace (Z.to_nat (Z.min 2 (len (a +:+ String "_" b) + 1) - 1)) with 1%nat by lia.
  cbn [splitLoop]. rewrite Index_sep_present by exact H.
  destruct (len a <? 0) eqn:E; [apply Z.ltb_lt in E; lia|].
  rewrite slice_before.
  change (len "_") with (len (one "_"%char)).
  rewrite sliceFrom_after. reflexivity.
Qed.

(** C10: [StorageVolumeParts] is not total. On a name without '_' the
    access to [parts[1]] is out of range, and the function fails; on a
    name with a '_' it returns the part before the first '_' and the
    remainder. It fails on the separator-free names exactly. *)
Theorem StorageVolumeParts_partial (s : string) :
  (Contains s "_" = false /\ StorageVolumeParts s = None)
  \/ (Contains s "_" = true
      /\ exists a b, StorageVolumeParts s = Some (a, b)
                     /\ s = a +:+ "_" +:+ b
                     /\ Contains a "_" = false).
Proof.
  rewrite !Contains_sep.
  destruct (hasByte "_" s) eqn:H.
  - right. split; [reflexivity|].
    destruct (hasByte_split _ _ H) as (a & b & -> & Ha).
    exists a, b. rewrite Contains_sep.
    unfold StorageVolumeParts. rewrite SplitN_two_present by exact Ha.
    split; [reflexivity|]. split; [reflexivity | exact Ha].
  - left. split; [reflexivity|].
    unfold StorageVolumeParts. rewrite SplitN_two_absent by exact H.
    reflexivity.
Qed.

(** What [StorageVolume] writes, [StorageVolumeParts] reads back, as long
    as the project name has no '_'. *)
Lemma StorageVolumeParts_StorageVolume (p v : string) :
  Contains p "_" = false ->
  StorageVolumeParts (StorageVolume p v) = Some (p, v).
Proof.
  rewrite Contains_sep. intros H.
  unfold StorageVolumeParts, StorageVolume.
  change (separator +:+ v) with (String "_"%char v).
  rewrite SplitN_two_present by exact H. reflexivity.
Qed.

End ProjectProofs.

(** ** The request pipeline *)
Module AdmissionProofs.
Import GoStrings Daemon Spec StringFacts.

(** Case analysis on the branches of the closure. *)
Ltac branches :=
  repeat match goal with
         | H : (_, _) = (_, _) |- _ => inversion H; subst; clear H
         | H : context [match ?x with _ => _ end] |- _ => destruct x eqn:?
         | |- context [match ?x with _ => _ end] => destruct x eqn:?
         end.

Lemma eqb_true_iff a b : String.eqb a b = true <-> a = b.
Proof. apply String.eqb_eq. Qed.

Lemma eqb_false_iff a b : String.eqb a b = false <-> a <> b.
Proof. apply String.eqb_neq. Qed.

Lemma prefix_append p s :
  String.prefix p s = true <-> exists rest, s = p +:+ rest.
Proof.
  revert s. induction p as [|x p' IH]; intros s.
  - split; [intros _; exists s; reflexivity | intros _; destruct s; reflexivity].
  - destruct s as [|y s']; simpl.
    + split; [discriminate | intros [rest H]; discriminate].
    + destruct (ascii_dec x y) as [->|Hne].
      * rewrite IH. split; intros [rest H]; exists rest.
        -- rewrite append_cons. now rewrite H.
        -- rewrite append_cons in H. now injection H.
      * split; [discriminate|]. intros [rest H].
        rewrite append_cons in H. injection H. intros _ E. congruence.
Qed.

(** The request that goes on to be processed differs from the one
    received by its context at most. *)
Lemma debugDump_request X r evs r' :
  debugDump X r = (evs, Some r') -> r' = r.
Proof. unfold debugDump. intros H. branches; reflexivity. Qed.

Lemma admission_request X d version c r evs r' :
  admission X d version c r = (evs, Some r') ->
  r' = r \/ exists ctx, r' = WithContext r ctx.
Proof.
  unfold admission, authenticated, internalGate, trustGate. intros H.
  branches;
    match goal with
    | E : debugDump _ _ = (_, Some _) |- _ => apply debugDump_request in E; subst
    end; eauto.
Qed.

Lemma admission_method X d version c r evs r' :
  admission X d version c r = (evs, Some r') -> Method r' = Method r.
Proof.
  intros H. destruct (admission_request _ _ _ _ _ _ _ H) as [->|[ctx ->]];
    reflexivity.
Qed.

(** The code's allow-list is the specification's. *)
Lemma allowedDuringShutdown_spec version c r :
  allowedDuringShutdown version c r = true <-> AllowListed version c r.
Proof.
  unfold allowedDuringShutdown, AllowListed, HasPrefix.
  destruct (String.eqb version "internal") eqn:Ev.
  { apply eqb_true_iff in Ev. tauto. }
  apply eqb_false_iff in Ev.
  destruct (String.eqb (Path c) "") eqn:E1.
  { apply eqb_true_iff in E1. simpl. tauto. }
  destruct (String.eqb (Path c) "events") eqn:E2.
  { apply eqb_true_iff in E2. simpl. tauto. }
  destruct (String.eqb (Path c) "operations") eqn:E3.
  { apply eqb_true_iff in E3. simpl. tauto. }
  apply eqb_false_iff in E1, E2, E3. cbn [orb].
  destruct (String.prefix "operations/" (Path c)) eqn:E4.
  { apply prefix_append in E4. tauto. }
  assert (N4 : ~ exists rest, Path c = "operations/" +:+ rest).
  { intros H. apply prefix_append in H. congruence. }
  destruct (String.eqb (Method r) "GET") eqn:E5.
  { apply eqb_true_iff in E5. tauto. }
  apply eqb_false_iff in E5.
  split; [discriminate|]. intros H. exfalso. tauto.
Qed.

(** C1: a request that arrives before [setupChan] is closed and is not a
    local-Unix request to the internal version gets 503 "Daemon setup in
    progress", and nothing else happens: no authentication, no handler.
    Once [setupChan] is closed the same request passes the gate: the
    closure goes on to authenticate it. *)
Theorem setup_gate (X : Externals) (before after : Daemon)
    (version : string) (c : APIEndpoint) (r : Request) :
  ~ (RemoteAddr r = "@" /\ version = "internal") ->
  setupChanClosed before = false ->
  setupChanClosed after = true ->
  createCmd X before version c r
    = [EvSetContentType;
       EvRender (ErrorResponse 503 (Some "Daemon setup in progress"))]
  /\ admission X after version c r
     = (EvSetContentType :: (authenticated X after version c r).1,
        (authenticated X after version c r).2)
  /\ exists rest,
       createCmd X after version c r = EvSetContentType :: EvAuthenticate :: rest.
Proof.
  intros Hnot Hb Ha.
  assert (G : String.eqb (RemoteAddr r) "@" && String.eqb version "internal" = false).
  { destruct (String.eqb (RemoteAddr r) "@") eqn:E1; [|reflexivity].
    destruct (String.eqb version "internal") eqn:E2; [|reflexivity].
    apply eqb_true_iff in E1, E2. tauto. }
  split; [|split].
  - unfold createCmd, admission. rewrite G, Hb. reflexivity.
  - unfold admission. rewrite G, Ha. cbn [negb andb].
    destruct (authenticated X after version c r). reflexivity.
  - unfold createCmd, admission. rewrite G, Ha. cbn [negb andb].
    unfold authenticated.
    destruct (Authenticate X after true r) as [[[trusted username] protocol] err].
    destruct err as [[msg|msg]|];
      try destruct (internalGate X after version c r trusted username protocol)
        as [evs [r'|]];
      eexists; reflexivity.
Qed.

(** The local-Unix request to the internal version is not held back. *)
Lemma setup_gate_internal_unix X d c r :
  RemoteAddr r = "@" ->
  admission X d "internal" c r
  = (EvSetContentType :: (authenticated X d "internal" c r).1,
     (authenticated X d "internal" c r).2).
Proof.
  intros H. unfold admission. rewrite H. cbn.
  destruct (authenticated X d "internal" c r). reflexivity.
Qed.

(** C2: a request that is processed while [shutdownCtx] is cancelled gets
    503 "Shutting down", unless it is to the internal version, or its
    endpoint path is empty, events, operations or below operations/, or
    its method is GET; those requests are dispatched as usual. *)
Theorem shutdown_gate (X : Externals) (d : Daemon) (version : string)
    (c : APIEndpoint) (r : Request) (evs : list Event) (r' : Request) :
  admission X d version c r = (evs, Some r') ->
  shutdownCancelled d = true ->
  (~ AllowListed version c r ->
   createCmd X d version c r
   = evs ++ [EvRender (ErrorResponse 503 (Some "Shutting down"))])
  /\ (AllowListed version c r ->
      createCmd X d version c r = evs ++ dispatched X d c r').
Proof.
  intros Hadm Hs.
  assert (A : allowedDuringShutdown version c r' = allowedDuringShutdown version c r).
  { unfold allowedDuringShutdown. now rewrite (admission_method _ _ _ _ _ _ _ Hadm). }
  unfold createCmd, process. rewrite Hadm, Hs, A. split; intros H.
  - destruct (allowedDuringShutdown version c r) eqn:E; [|reflexivity].
    apply allowedDuringShutdown_spec in E. contradiction.
  - apply allowedDuringShutdown_spec in H. rewrite H. reflexivity.
Qed.

(** A request processed while the daemon is not shutting down is
    dispatched. *)
Lemma no_shutdown_dispatched X d version c r evs r' :
  admission X d version c r = (evs, Some r') ->
  shutdownCancelled d = false ->
  createCmd X d version c r = evs ++ dispatched X d c r'.
Proof.
  intros Hadm Hs. unfold createCmd, process. now rewrite Hadm, Hs.
Qed.

End AdmissionProofs.

(** ** Authentication and user access *)
Module AuthProofs.
Import GoStrings Daemon Spec StringFacts AdmissionProofs.

(** The loop of [Authenticate] returns the first match. *)
Lemma firstTrusted_firstMatch X d trustSet ca certs :
  firstTrusted X d trustSet ca certs = firstMatch X d trustSet ca certs.
Proof.
  unfold firstMatch. induction certs as [|cert rest IH]; [reflexivity|].
  cbn [firstTrusted omap list_omap]. unfold trustedName at 1.
  destruct (CheckTrustState X cert trustSet (networkCert d) ca) as [trusted name].
  cbn [fst snd]. destruct trusted; [reflexivity | exact IH].
Qed.


(** The map the closure builds from a restriction entry has the entry's
    project names as keys, each with a nil value. *)
Lemma projectMap_lookup (projects : list string) (m : gmap string (list string))
    (p : string) :
  foldl (fun projectMap projectName => <[projectName := []]> projectMap) m projects !! p
  = if decide (p ∈ projects) then Some [] else m !! p.
Proof.
  revert m. induction projects as [|q rest IH]; intros m; cbn [foldl].
  - destruct (decide (p ∈ [])) as [H|_]; [|reflexivity].
    apply elem_of_nil in H. contradiction.
  - rewrite IH. destruct (decide (p ∈ rest)) as [H|H].
    + destruct (decide (p ∈ q :: rest)) as [_|N]; [reflexivity|].
      exfalso. apply N. now apply elem_of_cons; right.
    + destruct (decide (p = q)) as [->|Hne].
      * rewrite lookup_insert_eq.
        destruct (decide (q ∈ q :: rest)) as [_|N]; [reflexivity|].
        exfalso. apply N. apply elem_of_cons. now left.
      * rewrite lookup_insert_ne by congruence.
        destruct (decide (p ∈ q :: rest)) as [Y|_]; [|reflexivity].
        apply elem_of_cons in Y. destruct Y; contradiction.
Qed.

Lemma projectMap_dom (projects : list string) :
  dom (foldl (fun projectMap projectName => <[projectName := []]> projectMap)
         (∅ : gmap string (list string)) projects)
  = (list_to_set projects : gset string).
Proof.
  apply set_eq. intros p. rewrite elem_of_dom, projectMap_lookup, elem_of_list_to_set.
  destruct (decide (p ∈ projects)) as [H|H].
  - split; [intros _; exact H | intros _; eexists; reflexivity].
  - rewrite lookup_empty. split; [intros [? ?]; discriminate | contradiction].
Qed.

(** The closure [userAccess] never fails. *)
Lemma userAccess_no_error d protocol username :
  (userAccess d protocol username).2 = None.
Proof. unfold userAccess. branches; reflexivity. Qed.

(** A trusted request that goes on to be processed carries the access
    record of [userAccess] in its context. *)
Lemma admission_trusted_context X d version c r username protocol err evs r' :
  Authenticate X d true r = (true, username, protocol, err) ->
  admission X d version c r = (evs, Some r') ->
  CtxAccess (Ctx r') = Some (userAccess d protocol username).1
  /\ CtxUsername (Ctx r') = Some username
  /\ CtxProtocol (Ctx r') = Some protocol.
Proof.
  intros Hauth. unfold admission, authenticated, internalGate, trustGate.
  rewrite Hauth. intros H.
  branches;
    match goal with
    | E : debugDump _ _ = (_, Some _) |- _ => apply debugDump_request in E; subst
    end;
    repeat split; reflexivity.
Qed.

(** C4: the access record in the context of a trusted request. For
    protocol tls with an entry for the fingerprint in the restriction map:
    admin is false and the projects are exactly those of the entry (each
    mapped to nil). For protocol tls without an entry, and for protocols
    cluster and unix: admin is true. *)
Theorem user_access_record (X : Externals) (d : Daemon) (version : string)
    (c : APIEndpoint) (r : Request) (username protocol : string)
    (err : option error) (evs : list Event) (r' : Request) :
  Authenticate X d true r = (true, username, protocol, err) ->
  admission X d version c r = (evs, Some r') ->
  exists ua,
    CtxAccess (Ctx r') = Some ua
    /\ (protocol = "tls" ->
        forall certProjects projects,
          clientCertsProjects d = Some certProjects ->
          certProjects !! username = Some projects ->
          Admin ua = false
          /\ dom (Projects ua) = (list_to_set projects : gset string)
          /\ forall p l, Projects ua !! p = Some l -> l = [])
    /\ (protocol = "tls" ->
        (forall certProjects, clientCertsProjects d = Some certProjects ->
                              certProjects !! username = None) ->
        Admin ua = true)
    /\ (protocol = "cluster" \/ protocol = "unix" -> Admin ua = true).
Proof.
  intros Hauth Hadm.
  destruct (admission_trusted_context _ _ _ _ _ _ _ _ _ _ Hauth Hadm) as (Hua & _ & _).
  exists (userAccess d protocol username).1. split; [exact Hua|].
  unfold userAccess. split; [|split].
  - intros -> certProjects projects Hc Hp. cbn. rewrite Hc, Hp. cbn.
    split; [reflexivity|]. split; [apply projectMap_dom|].
    intros p l. rewrite projectMap_lookup, lookup_empty.
    destruct (decide (p ∈ projects)); congruence.
  - intros -> Hnone. cbn.
    destruct (clientCertsProjects d) as [certProjects|] eqn:Hc; [|reflexivity].
    now rewrite (Hnone certProjects eq_refl).
  - intros [-> | ->]; reflexivity.
Qed.

(** C5, as the code has it: an untrusted request (to another version
    than internal, once setup is done, without an OIDC error) goes on to
    be processed, with its context untouched, when its method is GET or
    POST, the action of that method allows untrusted clients and there is
    no X-Incus-authenticated header. Every other such request gets 403. *)
Theorem untrusted_requests (X : Externals) (d : Daemon) (version : string)
    (c : APIEndpoint) (r : Request) (username protocol : string)
    (err : option error) :
  setupChanClosed d = true ->
  version <> "internal" ->
  Authenticate X d true r = (false, username, protocol, err) ->
  (forall msg, err <> Some (AuthError msg)) ->
  BodyErr r = None ->
  (UntrustedAllowed c r ->
   admission X d version c r = ([EvSetContentType; EvAuthenticate], Some r))
  /\ (~ UntrustedAllowed c r ->
      createCmd X d version c r
      = [EvSetContentType; EvAuthenticate] ++ writeOIDCHeaders d
        ++ [EvRender (ErrorResponse 403 None)]).
Proof.
  intros Hsetup Hv Hauth Herr Hbody.
  apply eqb_false_iff in Hv.
  assert (U : untrustedOk c r
              && String.eqb (HeaderGet r "X-Incus-authenticated") "" = true
              <-> UntrustedAllowed c r).
  { unfold untrustedOk, UntrustedAllowed.
    rewrite andb_true_iff, orb_true_iff, !andb_true_iff, !eqb_true_iff. tauto. }
  assert (A : admission X d version c r
              = (let '(evs, o) := trustGate X d c r false username protocol in
                 (EvSetContentType :: EvAuthenticate :: evs, o))).
  { unfold admission, authenticated, internalGate.
    rewrite Hsetup, Hauth, Hv, andb_false_r. cbn [negb andb].
    destruct err as [[msg|msg]|]; [exfalso; exact (Herr msg eq_refl) | |];
      destruct (trustGate X d c r false username protocol); reflexivity. }
  split; intros H.
  - rewrite A. unfold trustGate. apply U in H. rewrite H.
    unfold debugDump. rewrite Hbody.
    destruct (Debug X && negb (String.eqb (Method r) "GET") && IsJSONRequest X r);
      reflexivity.
  - unfold createCmd. rewrite A. unfold trustGate.
    destruct (untrustedOk c r
              && String.eqb (HeaderGet r "X-Incus-authenticated") "") eqn:E.
    + exfalso. apply H, U. reflexivity.
    + reflexivity.
Qed.

End AuthProofs.

(** ** Heartbeats *)
Module HeartbeatProofs.
Import GoStrings Daemon Spec.

Lemma extractRaftNodes_none members :
  (forall id m, (id, m) ∈ members -> MemberRaftID m <= 0) ->
  extractRaftNodes members = [].
Proof.
  induction members as [|[id m] rest IH]; intros H; [reflexivity|].
  cbn [extractRaftNodes].
  assert (Hm : MemberRaftID m <= 0) by (apply (H id), elem_of_cons; now left).
  destruct (0 <? MemberRaftID m) eqn:E; [apply Z.ltb_lt in E; lia|].
  apply IH. intros id' m' Hin. apply (H id'), elem_of_cons. now right.
Qed.

Lemma classic_skew env hb : skewed env hb \/ ~ skewed env hb.
Proof. unfold skewed. lia. Qed.

(** The test of the handler is the five-second window. *)
Lemma skew_test env hb :
  (Time hb + 5 * Second <? now env) || (now env <? Time hb + (-5) * Second) = true
  <-> skewed env hb.
Proof.
  unfold skewed. rewrite orb_true_iff, !Z.ltb_lt. lia.
Qed.

Lemma timeSkewCheck_skewed X env d hb :
  skewed env hb ->
  timeSkewCheck X env d hb
  = (setTimeSkew d true,
     if negb (timeSkew d) && dbCluster d then
       [FxUpsertWarningLocalNode ClusterTimeSkew
          ("leaderTime: " +:+ TimeString X (Time hb)
           +:+ ", localTime: " +:+ TimeString X (now env))]
     else []).
Proof.
  intros H. apply skew_test in H. unfold timeSkewCheck. now rewrite H.
Qed.

Lemma timeSkewCheck_in_window X env d hb :
  ~ skewed env hb ->
  timeSkewCheck X env d hb
  = if timeSkew d then
      (setTimeSkew d false,
       if dbCluster d then [FxResolveWarningsByLocalNodeAndType ClusterTimeSkew]
       else [])
    else (d, []).
Proof.
  intros H. unfold timeSkewCheck.
  destruct ((Time hb + 5 * Second <? now env)
            || (now env <? Time hb + (-5) * Second)) eqn:E; [|reflexivity].
  apply skew_test in E. contradiction.
Qed.

(** After the time-skew check the handler touches neither the flag nor
    the warnings. *)
Lemma heartbeatHandler_after_check X env d isLeader hb :
  exists tail,
    (heartbeatHandler X env d isLeader hb).2 = (timeSkewCheck X env d hb).2 ++ tail
    /\ timeSkew (heartbeatHandler X env d isLeader hb).1
       = timeSkew (timeSkewCheck X env d hb).1
    /\ dbCluster (heartbeatHandler X env d isLeader hb).1 = dbCluster d
    /\ existsb isUpsertWarning tail = false
    /\ existsb isResolveWarnings tail = false.
Proof.
  assert (C : dbCluster (timeSkewCheck X env d hb).1 = dbCluster d).
  { unfold timeSkewCheck.
    destruct ((Time hb + 5 * Second <? now env)
              || (now env <? Time hb + (-5) * Second));
      [|destruct (timeSkew d)]; reflexivity. }
  unfold heartbeatHandler.
  destruct (timeSkewCheck X env d hb) as [d1 fx]. cbn [fst snd] in *.
  repeat match goal with
         | |- context [if ?b then _ else _] => destruct b
         | |- context [match ?o with Some _ => _ | None => _ end] => destruct o
         end;
    cbn [fst snd]; rewrite <- ?app_assoc;
    eexists; (split; [reflexivity|]); (split; [reflexivity|]);
    (split; [exact C|]); split; reflexivity.
Qed.

(** C6, as the code has it: a heartbeat none of whose members has a raft
    ID above 0 is answered with 400 right after the time-skew check. The
    raft-node table of the local database stays as it was and no
    replacement of it is attempted. The one database write such a call can
    make is that of the time-skew check to the warnings of the cluster
    database; without a change of the skew flag, or without a cluster
    database, there is no write at all. *)
Theorem empty_raft_set (X : Externals) (env : HeartbeatEnv) (d : Daemon)
    (isLeader : bool) (hb : APIHeartbeat) :
  (forall id m, (id, m) ∈ Members hb -> MemberRaftID m <= 0) ->
  heartbeatHandler X env d isLeader hb
  = ((timeSkewCheck X env d hb).1,
     (timeSkewCheck X env d hb).2
       ++ [FxHTTPError "400 Empty raft member set received" 400])
  /\ raftNodes (heartbeatHandler X env d isLeader hb).1 = raftNodes d
  /\ existsb isReplaceRaftNodes (heartbeatHandler X env d isLeader hb).2 = false
  /\ (forall fx, fx ∈ (heartbeatHandler X env d isLeader hb).2 ->
                 isDBWrite fx = true ->
                 isUpsertWarning fx || isResolveWarnings fx = true)
  /\ ((skewed env hb <-> timeSkew d = true) \/ dbCluster d = false ->
      existsb isDBWrite (heartbeatHandler X env d isLeader hb).2 = false).
Proof.
  intros H. apply extractRaftNodes_none in H.
  assert (E : heartbeatHandler X env d isLeader hb
              = ((timeSkewCheck X env d hb).1,
                 (timeSkewCheck X env d hb).2
                   ++ [FxHTTPError "400 Empty raft member set received" 400])).
  { unfold heartbeatHandler. rewrite H.
    destruct (timeSkewCheck X env d hb). reflexivity. }
  rewrite E. cbn [fst snd]. split; [reflexivity|].
  destruct (classic_skew env hb) as [S|S].
  - rewrite (timeSkewCheck_skewed _ _ _ _ S). cbn [fst snd].
    split; [reflexivity|]. split; [|split].
    + destruct (negb (timeSkew d) && dbCluster d); reflexivity.
    + intros fx Hin Hw.
      destruct (negb (timeSkew d) && dbCluster d);
        repeat (apply elem_of_cons in Hin; destruct Hin as [->|Hin]);
        try apply elem_of_nil in Hin; try contradiction; try discriminate;
        reflexivity.
    + intros [Hs | Hc].
      * apply Hs in S. rewrite S. reflexivity.
      * rewrite Hc, andb_false_r. reflexivity.
  - rewrite (timeSkewCheck_in_window _ _ _ _ S).
    destruct (timeSkew d) eqn:T; cbn [fst snd].
    + split; [reflexivity|]. split; [|split].
      * destruct (dbCluster d); reflexivity.
      * intros fx Hin Hw.
        destruct (dbCluster d);
          repeat (apply elem_of_cons in Hin; destruct Hin as [->|Hin]);
          try apply elem_of_nil in Hin; try contradiction; try discriminate;
          reflexivity.
      * intros [Hs | Hc].
        -- exfalso. apply S, Hs. reflexivity.
        -- rewrite Hc. reflexivity.
    + split; [reflexivity|]. split; [reflexivity|]. split; [|reflexivity].
      intros fx Hin Hw.
      repeat (apply elem_of_cons in Hin; destruct Hin as [->|Hin]);
        try apply elem_of_nil in Hin; try contradiction; discriminate.
Qed.

(** C7, as the code has it. A heartbeat whose time is more than five
    seconds off the local clock leaves [timeSkew] set, and the handler
    writes the ClusterTimeSkew warning exactly when the flag was not set
    before and the cluster database is open. A heartbeat inside the window
    leaves the flag cleared, and the handler resolves the warning exactly
    when the flag was set before and the cluster database is open. *)
Theorem time_skew_warning (X : Externals) (env : HeartbeatEnv) (d : Daemon)
    (isLeader : bool) (hb : APIHeartbeat) (d' : Daemon) (fx : list Effect) :
  heartbeatHandler X env d isLeader hb = (d', fx) ->
  (skewed env hb ->
   timeSkew d' = true
   /\ existsb isResolveWarnings fx = false
   /\ (existsb isUpsertWarning fx = true
       <-> timeSkew d = false /\ dbCluster d = true))
  /\ (~ skewed env hb ->
      timeSkew d' = false
      /\ existsb isUpsertWarning fx = false
      /\ (existsb isResolveWarnings fx = true
          <-> timeSkew d = true /\ dbCluster d = true)).
Proof.
  intros H.
  destruct (heartbeatHandler_after_check X env d isLeader hb)
    as (tail & Hfx & Hflag & _ & Hup & Hres).
  rewrite H in Hfx, Hflag. cbn [fst snd] in Hfx, Hflag. subst fx.
  rewrite !existsb_app, Hup, Hres, !orb_false_r, Hflag. split; intros S.
  - rewrite (timeSkewCheck_skewed _ _ _ _ S). cbn [fst snd].
    split; [reflexivity|].
    destruct (timeSkew d), (dbCluster d); cbn; intuition congruence.
  - rewrite (timeSkewCheck_in_window _ _ _ _ S).
    destruct (timeSkew d) eqn:T, (dbCluster d) eqn:C; cbn; rewrite ?T;
      intuition congruence.
Qed.

(** One skewed heartbeat: the flag is set, and the warnings written are
    those of the time-skew check. *)
Lemma no_upsert_filter (fx : list Effect) :
  existsb isUpsertWarning fx = false -> List.filter isUpsertWarning fx = [].
Proof.
  induction fx as [|x l IH]; [reflexivity|].
  cbn. intros U. apply orb_false_iff in U. destruct U as [-> U]. auto.
Qed.

Lemma skewed_step X env d isLeader hb :
  skewed env hb ->
  timeSkew (heartbeatHandler X env d isLeader hb).1 = true
  /\ List.filter isUpsertWarning (heartbeatHandler X env d isLeader hb).2
     = if negb (timeSkew d) && dbCluster d then
         [FxUpsertWarningLocalNode ClusterTimeSkew
            ("leaderTime: " +:+ TimeString X (Time hb)
             +:+ ", localTime: " +:+ TimeString X (now env))]
       else [].
Proof.
  intros S.
  destruct (heartbeatHandler_after_check X env d isLeader hb)
    as (tail & Hfx & Hflag & _ & Hup & _).
  rewrite Hfx, Hflag, List.filter_app, (no_upsert_filter _ Hup), app_nil_r.
  rewrite (timeSkewCheck_skewed _ _ _ _ S). cbn [fst snd].
  split; [reflexivity|].
  destruct (negb (timeSkew d) && dbCluster d); reflexivity.
Qed.

(** A run of skewed heartbeats that starts with the flag set writes no
    warning. *)
Lemma skewed_run_flag_set X d run :
  Forall (fun '(env, _, hb) => skewed env hb) run ->
  timeSkew d = true ->
  List.filter isUpsertWarning (heartbeats X d run).2 = [].
Proof.
  revert d. induction run as [|[[env isLeader] hb] rest IH]; intros d Hall Hd;
    [reflexivity|].
  apply Forall_cons in Hall. destruct Hall as [S Hrest].
  cbn [heartbeats].
  destruct (skewed_step X env d isLeader hb S) as [Hflag Hup].
  destruct (heartbeatHandler X env d isLeader hb) as [d1 fx1].
  cbn [fst snd] in Hflag, Hup.
  specialize (IH d1 Hrest Hflag).
  destruct (heartbeats X d1 rest) as [d2 fx2]. cbn [fst snd] in *.
  rewrite List.filter_app, IH, app_nil_r, Hup, Hd. reflexivity.
Qed.

(** Exactly one warning per skew episode, when the cluster database is
    open at its start. *)
Lemma skew_episode_once X d env isLeader hb rest :
  timeSkew d = false ->
  dbCluster d = true ->
  skewed env hb ->
  Forall (fun '(env, _, hb) => skewed env hb) rest ->
  length (List.filter isUpsertWarning
            (heartbeats X d ((env, isLeader, hb) :: rest)).2) = 1%nat.
Proof.
  intros Hd Hc S Hrest. cbn [heartbeats].
  destruct (skewed_step X env d isLeader hb S) as [Hflag Hup].
  destruct (heartbeatHandler X env d isLeader hb) as [d1 fx1].
  cbn [fst snd] in Hflag, Hup.
  pose proof (skewed_run_flag_set X d1 rest Hrest Hflag) as Hr.
  destruct (heartbeats X d1 rest) as [d2 fx2]. cbn [fst snd] in *.
  rewrite List.filter_app, Hr, app_nil_r, Hup, Hd, Hc. reflexivity.
Qed.

(** Without a cluster database a skew episode writes no warning. *)
Lemma skew_episode_no_cluster X d run :
  dbCluster d = false ->
  Forall (fun '(env, _, hb) => skewed env hb) run ->
  List.filter isUpsertWarning (heartbeats X d run).2 = [].
Proof.
  intros Hc Hall. destruct run as [|[[env isLeader] hb] rest]; [reflexivity|].
  apply Forall_cons in Hall. destruct Hall as [S Hrest].
  cbn [heartbeats].
  destruct (skewed_step X env d isLeader hb S) as [Hflag Hup].
  destruct (heartbeatHandler X env d isLeader hb) as [d1 fx1].
  cbn [fst snd] in Hflag, Hup.
  pose proof (skewed_run_flag_set X d1 rest Hrest Hflag) as Hr.
  destruct (heartbeats X d1 rest) as [d2 fx2]. cbn [fst snd] in *.
  rewrite List.filter_app, Hr, app_nil_r, Hup, Hc, andb_false_r. reflexivity.
Qed.

End HeartbeatProofs.

(** ** Shared mounts *)
Module MountProofs.
Import GoStrings Daemon Spec.

(** C8: [setupSharedMounts] is idempotent. A call that returns nil leaves
    the flag [SharedMountsSetup] set, and every call after it returns nil,
    mounts nothing and changes nothing. Were the flag lost, the mount
    point left by the first call would still stop a later call before any
    mount. *)
Theorem setupSharedMounts_idempotent (X : Externals) (env : MountEnv)
    (st st' : MountState) (calls : list MountCall) :
  setupSharedMounts X env st = (st', None, calls) ->
  SharedMountsSetup st' = true
  /\ (forall env', setupSharedMounts X env' st' = (st', None, []))
  /\ (SharedMountsSetup st = false ->
      IsMountPoint st' (VarPath X "shmounts") = true
      /\ forall env',
           setupSharedMounts X env'
             {| SharedMountsSetup := false; mountPoints := mountPoints st' |}
           = (st', None, [])).
Proof.
  unfold setupSharedMounts. intros H.
  destruct (SharedMountsSetup st) eqn:F.
  - inversion H; subst. rewrite F. repeat split; [discriminate..].
  - destruct (IsMountPoint st (VarPath X "shmounts")) eqn:M.
    + inversion H; subst. cbn. split; [reflexivity|]. split; [reflexivity|].
      intros _. unfold IsMountPoint in *. cbn. rewrite M. split; reflexivity.
    + destruct (mountTmpfsErr env); [discriminate|].
      destruct (mountSharedErr env); [discriminate|].
      inversion H; subst. cbn. split; [reflexivity|]. split; [reflexivity|].
      intros _. unfold IsMountPoint. cbn.
      assert (B : bool_decide (VarPath X "shmounts"
                               ∈ ({[VarPath X "shmounts"]} ∪ mountPoints st : gset string))
                  = true).
      { apply bool_decide_eq_true. set_solver. }
      rewrite B. split; reflexivity.
Qed.

(** A failed mount leaves the flag unset, so that the next call tries
    again. *)
Lemma setupSharedMounts_error X env st st' err calls :
  setupSharedMounts X env st = (st', Some err, calls) ->
  SharedMountsSetup st' = false /\ calls <> [].
Proof.
  unfold setupSharedMounts. intros H.
  destruct (SharedMountsSetup st) eqn:F; [discriminate|].
  destruct (IsMountPoint st (VarPath X "shmounts")); [discriminate|].
  destruct (mountTmpfsErr env).
  - inversion H; subst. split; [exact F | discriminate].
  - destruct (mountSharedErr env); [|discriminate].
    inversion H; subst. split; [reflexivity | discriminate].
Qed.

End MountProofs.

(** ** The theorems at work on concrete requests and heartbeats *)
Module Scenarios.
Import GoStrings Daemon Spec Samples.
Import AdmissionProofs AuthProofs HeartbeatProofs MountProofs.

(** A TLS client before and after the end of setup. *)
Lemma setup_gate_witness :
  createCmd externals (daemon false false None) "1.0" instances clientGet
  = [EvSetContentType;
     EvRender (ErrorResponse 503 (Some "Daemon setup in progress"))]
  /\ exists rest,
       createCmd externals (daemon true false None) "1.0" instances clientGet
       = EvSetContentType :: EvAuthenticate :: rest.
Proof.
  destruct (setup_gate externals (daemon false false None) (daemon true false None)
              "1.0" instances clientGet) as (H1 & _ & H3).
  - intros [E _]. discriminate E.
  - reflexivity.
  - reflexivity.
  - split; [exact H1 | exact H3].
Defined.

(** After setup the same request is answered by the handler. *)
Example setup_done_200 :
  List.last (createCmd externals (daemon true false None) "1.0" instances clientGet)
    EvSetContentType
  = EvRender (HandlerResponse 200 "{}").
Proof. vm_compute. reflexivity. Qed.

(** Over the Unix socket the internal version is served during setup. *)
Example unix_internal_during_setup :
  List.last (createCmd externals (daemon false false None) "internal"
               (endpoint "ready" false) unixGet)
    EvSetContentType
  = EvRender (HandlerResponse 200 "{}").
Proof. vm_compute. reflexivity. Qed.

(** A trusted PUT while shutting down. *)
Lemma shutdown_gate_witness :
  createCmd externals (daemon true true None) "1.0" instances clientPut
  = [EvSetContentType; EvAuthenticate;
     EvRender (ErrorResponse 503 (Some "Shutting down"))].
Proof.
  refine (proj1 (shutdown_gate externals (daemon true true None) "1.0" instances
                   clientPut [EvSetContentType; EvAuthenticate]
                   (WithContext clientPut
                      (authContext externals clientPut "client-1" "tls"
                         {| Admin := true; Projects := ∅ |}))
                   _ _) _).
  - vm_compute. reflexivity.
  - reflexivity.
  - unfold AllowListed. intros [H|[H|[H|[H|[[rest H]|H]]]]]; discriminate H.
Defined.

(** A trusted GET while shutting down is dispatched. *)
Example shutdown_get_served :
  List.last (createCmd externals (daemon true true None) "1.0" instances clientGet)
    EvSetContentType
  = EvRender (HandlerResponse 200 "{}").
Proof. vm_compute. reflexivity. Qed.


Example client_is_tls :
  Authenticate externals (daemon true false None) true clientGet
  = (true, "client-1", "tls", None).
Proof. vm_compute. reflexivity. Qed.

Example server_is_cluster :
  Authenticate externals (daemon true false None) true
    (request remote (Some [clientCert; serverCert]) "GET" "/1.0" ∅)
  = (true, "server-1", "cluster", None).
Proof. vm_compute. reflexivity. Qed.


(** A TLS client restricted to two projects. *)
Lemma user_access_record_witness :
  exists ua,
    CtxAccess (Ctx (WithContext clientGet
                      (authContext externals clientGet "client-1" "tls"
                         (userAccess (daemon true false restriction)
                            "tls" "client-1").1)))
    = Some ua
    /\ Admin ua = false
    /\ dom (Projects ua) = (list_to_set ["p1"; "p2"] : gset string).
Proof.
  destruct (user_access_record externals (daemon true false restriction) "1.0"
              instances clientGet "client-1" "tls" None
              [EvSetContentType; EvAuthenticate]
              (WithContext clientGet
                 (authContext externals clientGet "client-1" "tls"
                    (userAccess (daemon true false restriction)
                       "tls" "client-1").1)))
    as (ua & Hctx & Hrestricted & _ & _).
  - vm_compute. reflexivity.
  - vm_compute. reflexivity.
  - exists ua. split; [exact Hctx|].
    destruct (Hrestricted eq_refl {[ "client-1" := ["p1"; "p2"] ]} ["p1"; "p2"])
      as (Hadmin & Hdom & _).
    + reflexivity.
    + vm_compute. reflexivity.
    + split; [exact Hadmin | exact Hdom].
Defined.

(** The restricted client is no admin, so an admin-only endpoint refuses
    it. *)
Example restricted_client_forbidden :
  createCmd externals (daemon true false restriction) "1.0" instances clientGet
  = [EvSetContentType; EvAuthenticate; EvRender (ErrorResponse 403 None)].
Proof. vm_compute. reflexivity. Qed.

(** An untrusted GET of an endpoint open to untrusted clients. *)
Lemma untrusted_requests_witness :
  admission externals (daemon true false None) "1.0" publicEndpoint strangerGet
  = ([EvSetContentType; EvAuthenticate], Some strangerGet).
Proof.
  refine (proj1 (untrusted_requests externals (daemon true false None) "1.0"
                   publicEndpoint strangerGet "" "" None _ _ _ _ _) _).
  - reflexivity.
  - discriminate.
  - vm_compute. reflexivity.
  - intros msg H. discriminate H.
  - reflexivity.
  - split; [left; split; reflexivity | reflexivity].
Defined.

Example untrusted_get_served :
  createCmd externals (daemon true false None) "1.0" publicEndpoint strangerGet
  = [EvSetContentType; EvAuthenticate; EvHandler strangerGet;
     EvRender (HandlerResponse 200 "{}")].
Proof. vm_compute. reflexivity. Qed.

(** C5 as claimed fails: the PUT action of the endpoint allows untrusted
    clients and the request claims no authentication, yet an untrusted PUT
    gets 403. *)
Lemma untrusted_put_rejected :
  UntrustedAllowedAnyMethod publicEndpoint strangerPut
  /\ Authenticate externals (daemon true false None) true strangerPut
     = (false, "", "", None)
  /\ createCmd externals (daemon true false None) "1.0" publicEndpoint strangerPut
     = [EvSetContentType; EvAuthenticate; EvRender (ErrorResponse 403 None)].
Proof.
  split; [|split; vm_compute; reflexivity].
  split; [|reflexivity]. exists (Put publicEndpoint). split; reflexivity.
Qed.

(** A heartbeat whose one member has no raft ID. *)
Lemma empty_raft_set_witness :
  heartbeatHandler externals (clock 0) (daemon true false None) false
    (heartbeat 0 [(1, member 0)])
  = (daemon true false None,
     [FxHTTPError "400 Empty raft member set received" 400]).
Proof.
  refine (eq_trans
            (proj1 (empty_raft_set externals (clock 0) (daemon true false None)
                      false (heartbeat 0 [(1, member 0)]) _)) _).
  - intros id m H. apply elem_of_cons in H. destruct H as [H|H].
    + injection H as _ ->. cbn. lia.
    + apply elem_of_nil in H. contradiction.
  - reflexivity.
Defined.

(** C6 as claimed fails: a heartbeat without raft nodes whose time is ten
    seconds ahead is answered with 400 after the time-skew warning went to
    the cluster database. *)
Lemma empty_raft_set_writes_warning :
  extractRaftNodes (Members (heartbeat (10 * Second) [])) = []
  /\ heartbeatHandler externals (clock 0) (daemon true false None) false
       (heartbeat (10 * Second) [])
     = (setTimeSkew (daemon true false None) true,
        [FxUpsertWarningLocalNode ClusterTimeSkew "leaderTime: t, localTime: t";
         FxHTTPError "400 Empty raft member set received" 400])
  /\ existsb isDBWrite
       (heartbeatHandler externals (clock 0) (daemon true false None) false
          (heartbeat (10 * Second) [])).2 = true.
Proof. split; [reflexivity|]. split; reflexivity. Qed.

(** A skewed heartbeat, then one inside the window. *)
Lemma time_skew_warning_witness :
  timeSkew (heartbeatHandler externals (clock 0) (daemon true false None) false
              (heartbeat (10 * Second) [(1, member 1)])).1 = true
  /\ existsb isUpsertWarning
       (heartbeatHandler externals (clock 0) (daemon true false None) false
          (heartbeat (10 * Second) [(1, member 1)])).2 = true.
Proof.
  destruct (heartbeatHandler externals (clock 0) (daemon true false None) false
              (heartbeat (10 * Second) [(1, member 1)])) as [d' fx] eqn:E.
  destruct (proj1 (time_skew_warning _ _ _ _ _ _ _ E)) as (Hflag & _ & Hup).
  - unfold skewed, Second. cbn. lia.
  - split; [exact Hflag|]. apply Hup. split; reflexivity.
Defined.

Example skew_then_resolved :
  (heartbeats externals (daemon true false None)
     [(clock 0, false, heartbeat (10 * Second) [(1, member 1)]);
      (clock (11 * Second), false, heartbeat (12 * Second) [(1, member 1)]);
      (clock (20 * Second), false, heartbeat (21 * Second) [(1, member 1)])]).2
  = [FxUpsertWarningLocalNode ClusterTimeSkew "leaderTime: t, localTime: t";
     FxReplaceRaftNodes (extractRaftNodes [(1, member 1)]);
     FxResolveWarningsByLocalNodeAndType ClusterTimeSkew;
     FxReplaceRaftNodes (extractRaftNodes [(1, member 1)]);
     FxReplaceRaftNodes (extractRaftNodes [(1, member 1)])].
Proof. vm_compute. reflexivity. Qed.

(** C7 as claimed fails: with the flag set and no cluster database open,
    a heartbeat inside the window clears the flag and resolves nothing. *)
Lemma in_window_without_cluster_db :
  timeSkew skewedNoCluster = true
  /\ ~ skewed (clock 0) (heartbeat Second [(1, member 1)])
  /\ timeSkew (heartbeatHandler externals (clock 0) skewedNoCluster false
                 (heartbeat Second [(1, member 1)])).1 = false
  /\ existsb isResolveWarnings
       (heartbeatHandler externals (clock 0) skewedNoCluster false
          (heartbeat Second [(1, member 1)])).2 = false.
Proof.
  split; [reflexivity|]. split; [unfold skewed, Second; cbn; lia|].
  split; reflexivity.
Qed.

(** The first call on a fresh host mounts twice; the second mounts
    nothing. *)
Lemma setupSharedMounts_idempotent_witness :
  setupSharedMounts externals mountsWork
    {| SharedMountsSetup := true;
       mountPoints := {[ "/var/lib/incus/shmounts" ]} ∪ ∅ |}
  = ({| SharedMountsSetup := true;
        mountPoints := {[ "/var/lib/incus/shmounts" ]} ∪ ∅ |}, None, []).
Proof.
  refine (proj1 (proj2 (setupSharedMounts_idempotent externals mountsWork freshHost
                          {| SharedMountsSetup := true;
                             mountPoints := {[ "/var/lib/incus/shmounts" ]} ∪ ∅ |}
                          [ {| mountSource := "tmpfs";
                               mountTarget := "/var/lib/incus/shmounts";
                               mountFstype := "tmpfs"; mountFlags := 0;
                               mountData := "size=100k,mode=0711" |};
                            {| mountSource := "/var/lib/incus/shmounts";
                               mountTarget := "/var/lib/incus/shmounts";
                               mountFstype := "none"; mountFlags := 1064960;
                               mountData := "" |} ] _)) mountsWork).
  reflexivity.
Defined.

End Scenarios.

(** * Further properties of the code *)

(** ** Project-prefixed names, both ways *)
Module ProjectExtra.
Import GoStrings Project StringFacts ProjectProofs.

(** The last occurrence of a byte splits a string as the first does. *)
Lemma hasByte_split_last c s :
  hasByte c s = true ->
  exists a b, s = a +:+ String c b /\ hasByte c b = false.
Proof.
  induction s as [|x s' IH]; intros H; [discriminate|].
  destruct (hasByte c s') eqn:T.
  - destruct (IH eq_refl) as (a & b & -> & Hb).
    exists (String x a), b. split; [reflexivity | exact Hb].
  - cbn [hasByte] in H. destruct (ascii_dec c x) as [->|Hne]; [|congruence].
    exists EmptyString, s'. split; [reflexivity | exact T].
Qed.

Lemma hasByte_append c a b :
  hasByte c (a +:+ b) = hasByte c a || hasByte c b.
Proof.
  induction a as [|x a' IH]; [reflexivity|].
  rewrite append_cons. cbn [hasByte]. destruct (ascii_dec c x); [reflexivity|exact IH].
Qed.

Lemma InstanceParts_split a b :
  hasByte "_" b = false ->
  InstanceParts (a +:+ String "_" b) = (a, b).
Proof.
  intros H. unfold InstanceParts, LastIndex. rewrite separator_one.
  rewrite lastIndexFrom_last by exact H.
  pose proof (len_nonneg a).
  destruct (0 + len a <? 0) eqn:L; [apply Z.ltb_lt in L; lia|].
  rewrite Z.add_0_l, slice_before.
  change (len a + 1) with (len a + len (one "_"%char)).
  rewrite sliceFrom_after. reflexivity.
Qed.

Lemma InstanceParts_unprefixed s :
  hasByte "_" s = false -> InstanceParts s = (Default, s).
Proof.
  intros H. unfold InstanceParts, LastIndex. rewrite separator_one.
  rewrite lastIndexFrom_absent by exact H. reflexivity.
Qed.

(** What [Instance] writes, [InstanceParts] reads back. *)
Lemma parts_of_instance p n :
  hasByte "_" n = false -> InstanceParts (Instance p n) = (p, n).
Proof.
  intros H. unfold Instance.
  destruct (String.eqb p Default) eqn:E; cbn [negb].
  - apply String.eqb_eq in E. subst p. apply InstanceParts_unprefixed, H.
  - change (separator +:+ n) with (String "_"%char n).
    apply InstanceParts_split, H.
Qed.

(** Instances of different projects, or of different names, never get the
    same prefixed name, as long as instance names have no '_'. *)
Theorem Instance_injective (p n p' n' : string) :
  Contains n separator = false ->
  Contains n' separator = false ->
  Instance p n = Instance p' n' ->
  p = p' /\ n = n'.
Proof.
  rewrite separator_one, !Contains_hasByte. intros Hn Hn' H.
  apply (f_equal InstanceParts) in H.
  rewrite !parts_of_instance in H by assumption.
  now injection H.
Qed.

Lemma Instance_injective_witness :
  "my_proj" = "my_proj" /\ "c1" = "c1".
Proof.
  apply (Instance_injective "my_proj" "c1" "my_proj" "c1"); reflexivity.
Defined.

(** The instance part [InstanceParts] returns never contains the
    separator, whatever the input. *)
Theorem InstanceParts_instance_clean (s : string) :
  Contains (InstanceParts s).2 separator = false.
Proof.
  rewrite separator_one, Contains_hasByte.
  destruct (hasByte "_" s) eqn:H.
  - destruct (hasByte_split_last _ _ H) as (a & b & -> & Hb).
    rewrite InstanceParts_split by exact Hb. exact Hb.
  - rewrite InstanceParts_unprefixed by exact H. exact H.
Qed.

(** [Instance] rebuilds the name [InstanceParts] took apart, unless the
    name is prefixed with the default project itself. *)
Theorem Instance_InstanceParts (s : string) :
  Contains s separator = false \/ (InstanceParts s).1 <> Default ->
  Instance (InstanceParts s).1 (InstanceParts s).2 = s.
Proof.
  rewrite separator_one, Contains_hasByte. intros H.
  destruct (hasByte "_" s) eqn:Hs.
  - destruct H as [H|H]; [discriminate|].
    destruct (hasByte_split_last _ _ Hs) as (a & b & -> & Hb).
    rewrite InstanceParts_split in H |- * by exact Hb. cbn [fst snd] in *.
    unfold Instance. apply String.eqb_neq in H. rewrite H. reflexivity.
  - rewrite InstanceParts_unprefixed by exact Hs. reflexivity.
Qed.

Lemma Instance_InstanceParts_witness :
  Instance (InstanceParts "a_b_c1").1 (InstanceParts "a_b_c1").2 = "a_b_c1".
Proof.
  apply (Instance_InstanceParts "a_b_c1"). right. discriminate.
Defined.

(** A name prefixed with "default_" does not survive the round trip. *)
Example default_prefix_lost :
  Instance (InstanceParts "default_c1").1 (InstanceParts "default_c1").2 = "c1".
Proof. reflexivity. Qed.

Lemma append_length_neq a x b : a <> a +:+ String x b.
Proof.
  intros H. apply (f_equal String.length) in H.
  rewrite length_append in H. cbn [String.length] in H. lia.
Qed.

(** [StorageVolumeParts] always succeeds on what [StorageVolume] wrote,
    and gives back the project and the volume exactly when the project
    name has no '_'. *)
Theorem StorageVolume_round_trip (p v : string) :
  (exists a b, StorageVolumeParts (StorageVolume p v) = Some (a, b))
  /\ (StorageVolumeParts (StorageVolume p v) = Some (p, v)
      <-> Contains p "_" = false).
Proof.
  rewrite Contains_sep. unfold StorageVolume.
  change (separator +:+ v) with (String "_"%char v).
  destruct (hasByte "_" p) eqn:H.
  - destruct (hasByte_split _ _ H) as (a & b & -> & Ha).
    assert (E : (a +:+ String "_" b) +:+ String "_" v
                = a +:+ String "_" (b +:+ String "_" v)).
    { clear. induction a as [|x a' IH]; [reflexivity|].
      rewrite !append_cons. now rewrite IH. }
    unfold StorageVolumeParts. rewrite E, SplitN_two_present by exact Ha. cbn.
    split; [eauto|]. split; [|discriminate].
    intros Heq. injection Heq as Hp _. exfalso. exact (append_length_neq _ _ _ Hp).
  - unfold StorageVolumeParts. rewrite SplitN_two_present by exact H. cbn.
    split; [eauto|]. split; reflexivity.
Qed.

(** The two parts [StorageVolumeParts] returns rejoin to the name. *)
Theorem StorageVolume_StorageVolumeParts (s a b : string) :
  StorageVolumeParts s = Some (a, b) -> StorageVolume a b = s.
Proof.
  unfold StorageVolumeParts. destruct (hasByte "_" s) eqn:H.
  - destruct (hasByte_split _ _ H) as (a' & b' & -> & Ha).
    rewrite SplitN_two_present by exact Ha. cbn. intros E. injection E as -> ->.
    reflexivity.
  - rewrite SplitN_two_absent by exact H. discriminate.
Qed.

Lemma StorageVolume_StorageVolumeParts_witness :
  StorageVolume "p" "vol_a" = "p_vol_a".
Proof.
  apply (StorageVolume_StorageVolumeParts "p_vol_a" "p" "vol_a"). reflexivity.
Defined.

End ProjectExtra.

(** ** Effective projects and network access *)
Module RecordsExtra.
Import GoStrings Project Daemon ProjectRecords.

(** The shortcuts of [StorageVolumeProject] agree with
    [StorageVolumeProjectFromRecord]: whenever the project loads, under the
    name it was asked for, both give the same project for every volume
    type. *)
Theorem StorageVolumeProject_agrees (E : ProjectEnv) (projectName : string)
    (volumeType : Z) (p : ApiProject) :
  loadProject E projectName = inr p ->
  ProjectName p = projectName ->
  StorageVolumeProject E projectName volumeType
  = inr (StorageVolumeProjectFromRecord E p volumeType).
Proof.
  intros Hload Hname. unfold StorageVolumeProject, StorageVolumeProjectFromRecord.
  rewrite Hload, Hname.
  destruct (volumeType =? StoragePoolVolumeTypeImage E); [reflexivity|].
  destruct (volumeType =? StoragePoolVolumeTypeCustom E); reflexivity.
Qed.

(** Only custom volumes need the project record: for every other volume
    type [StorageVolumeProject] succeeds, also when the project cannot be
    loaded, and a failure always is one of loading the project for a
    custom volume. *)
Theorem StorageVolumeProject_failure (E : ProjectEnv) (projectName : string)
    (volumeType : Z) (err : error) :
  StorageVolumeProject E projectName volumeType = inl err ->
  volumeType = StoragePoolVolumeTypeCustom E
  /\ volumeType <> StoragePoolVolumeTypeImage E
  /\ exists cause, loadProject E projectName = inl cause
                   /\ err = failedToLoad E projectName cause.
Proof.
  unfold StorageVolumeProject.
  destruct (volumeType =? StoragePoolVolumeTypeImage E) eqn:I; [discriminate|].
  destruct (volumeType =? StoragePoolVolumeTypeCustom E) eqn:C; [|discriminate].
  cbn [negb]. apply Z.eqb_eq in C. apply Z.eqb_neq in I.
  destruct (loadProject E projectName) as [cause|p]; [|discriminate].
  intros H. injection H as <-. eauto.
Qed.

(** The default project is its own effective project for volumes,
    buckets, networks, profiles and network zones, whatever its features
    say. *)
Theorem default_project_effective (E : ProjectEnv) (p : ApiProject)
    (volumeType : Z) :
  ProjectName p = Default ->
  StorageVolumeProjectFromRecord E p volumeType = Default
  /\ StorageBucketProjectFromRecord E p = Default
  /\ NetworkProjectFromRecord E p = Default
  /\ ProfileProjectFromRecord E p = Default
  /\ NetworkZoneProjectFromRecord E p = Default.
Proof.
  intros H.
  unfold StorageVolumeProjectFromRecord, StorageBucketProjectFromRecord,
    NetworkProjectFromRecord, ProfileProjectFromRecord,
    NetworkZoneProjectFromRecord.
  rewrite H.
  repeat split;
    repeat match goal with |- context [if ?b then _ else _] => destruct b end;
    reflexivity.
Qed.

(** [ProfileProject] succeeds exactly when the transaction begins and
    commits, the requested project and its configuration load, and, for a
    project without profiles of its own, the default project and its
    configuration load as well. What it returns then is the requested
    project's record when that project has its own profiles, and the
    record of the default project in the other case only. *)
Theorem ProfileProject_result (E : ProjectEnv) (projectName : string)
    (result : ApiProject) :
  ProfileProject E projectName = inr result
  <-> TxBeginErr E = None
      /\ TxCommitErr E = None
      /\ exists dbProject p,
           GetProject E projectName = inr dbProject
           /\ ToAPI E dbProject = inr p
           /\ ((ProfileProjectFromRecord E p <> Default /\ result = p)
               \/ (ProfileProjectFromRecord E p = Default
                   /\ exists dbDefault,
                        GetProject E Default = inr dbDefault
                        /\ ToAPI E dbDefault = inr result)).
Proof.
  unfold ProfileProject, Transaction. split.
  - destruct (TxBeginErr E); [discriminate|].
    destruct (GetProject E projectName) as [e|db]; [discriminate|].
    destruct (ToAPI E db) as [e|p0] eqn:T; [discriminate|].
    destruct (String.eqb (ProfileProjectFromRecord E p0) Default) eqn:D.
    + apply String.eqb_eq in D. rewrite D.
      destruct (GetProject E Default) as [e|db'] eqn:G'; [discriminate|].
      destruct (ToAPI E db') as [e|p'] eqn:T'; [discriminate|].
      destruct (TxCommitErr E); [discriminate|].
      intros H. injection H as <-.
      split; [reflexivity|]. split; [reflexivity|].
      exists db, p0. split; [reflexivity|].
      split; [first [exact T | reflexivity]|].
      right. split; [exact D|]. exists db'.
      split; first [assumption | reflexivity].
    + rewrite T. destruct (TxCommitErr E); [discriminate|].
      intros H. injection H as <-.
      split; [reflexivity|]. split; [reflexivity|].
      exists db, p0. split; [reflexivity|].
      split; [first [exact T | reflexivity]|].
      left. split; [now apply String.eqb_neq | reflexivity].
  - intros (-> & -> & db & p & -> & T & H). rewrite T.
    destruct H as [[D ->]|(D & dbd & G & Td)].
    + apply String.eqb_neq in D. rewrite D, T. reflexivity.
    + rewrite D. rewrite String.eqb_refl, G, Td. reflexivity.
Qed.

(** With its own profiles a project gets its own record, whatever the
    default project's record is. *)
Lemma ProfileProject_own_profiles (E : ProjectEnv) (projectName : string)
    (dbProject : DbProject) (p result : ApiProject) :
  GetProject E projectName = inr dbProject ->
  ToAPI E dbProject = inr p ->
  ProfileProjectFromRecord E p <> Default ->
  ProfileProject E projectName = inr result ->
  result = p.
Proof.
  intros G T D H.
  unfold ProfileProject, Transaction in H. rewrite G, T in H.
  apply String.eqb_neq in D. rewrite D, T in H.
  destruct (TxBeginErr E); [discriminate|].
  destruct (TxCommitErr E); [discriminate|].
  now injection H as <-.
Qed.

(** A network a restricted project may not use when it is managed, it may
    not use when it is unmanaged either: being managed never costs
    access. *)
Theorem NetworkAllowed_managed (E : ProjectEnv) (config : gmap string string)
    (networkName : string) :
  NetworkAllowed E config networkName false = true ->
  NetworkAllowed E config networkName true = true.
Proof.
  unfold NetworkAllowed.
  destruct (IsFalseOrEmpty E (ConfigGet config "restricted")); [reflexivity|].
  destruct (String.eqb (ConfigGet config "restricted.devices.nic") "block");
    [discriminate|].
  destruct (ValueInSlice (ConfigGet config "restricted.devices.nic") ["managed"; ""]);
    cbn [negb andb]; [discriminate|]. trivial.
Qed.

(** In a restricted project an unmanaged network is reachable only when
    "restricted.devices.nic" is set, and neither to "block" nor to
    "managed". *)
Theorem NetworkAllowed_unmanaged (E : ProjectEnv) (config : gmap string string)
    (networkName : string) :
  IsFalseOrEmpty E (ConfigGet config "restricted") = false ->
  NetworkAllowed E config networkName false = true ->
  ConfigGet config "restricted.devices.nic" <> "block"
  /\ ConfigGet config "restricted.devices.nic" <> "managed"
  /\ ConfigGet config "restricted.devices.nic" <> "".
Proof.
  unfold NetworkAllowed, ValueInSlice. intros -> H. cbn [existsb] in H.
  destruct (String.eqb (ConfigGet config "restricted.devices.nic") "block") eqn:B;
    [discriminate|].
  destruct (String.eqb (ConfigGet config "restricted.devices.nic") "managed") eqn:M;
    [discriminate|].
  destruct (String.eqb (ConfigGet config "restricted.devices.nic") "") eqn:N;
    [discriminate|].
  apply String.eqb_neq in B, M, N. auto.
Qed.

End RecordsExtra.

(** ** What every request gets *)
Module PipelineExtra.
Import GoStrings Daemon Spec Refresh StringFacts AdmissionProofs.

(** All the branches of the closure at once. *)
Ltac pipeline :=
  unfold createCmd, admission, authenticated, internalGate, trustGate,
    debugDump, process, dispatched, dispatch, handleRequest, render,
    writeOIDCHeaders in *;
  branches.

(** Whatever the request, the closure renders a response last, renders at
    most one more before it (the one whose rendering failed), and calls
    the handler and the access handler of the endpoint at most once. *)
Theorem one_response (X : Externals) (d : Daemon) (version : string)
    (c : APIEndpoint) (r : Request) :
  (length (List.filter isHandlerEvent (createCmd X d version c r)) <= 1)%nat
  /\ (length (List.filter isAccessEvent (createCmd X d version c r)) <= 1)%nat
  /\ (1 <= length (List.filter isRenderEvent (createCmd X d version c r)) <= 2)%nat
  /\ isRenderEvent (List.last (createCmd X d version c r) EvSetContentType) = true.
Proof.
  pipeline; cbn; repeat split; lia.
Qed.

(** The switch on the method, as a lookup of the registered action. *)
Lemma actionOf_eqb c m :
  actionOf c m
  = if String.eqb m "GET" then Some (Get c)
    else if String.eqb m "HEAD" then Some (Head c)
    else if String.eqb m "PUT" then Some (Put c)
    else if String.eqb m "POST" then Some (Post c)
    else if String.eqb m "DELETE" then Some (Delete c)
    else if String.eqb m "PATCH" then Some (Patch c)
    else None.
Proof.
  unfold actionOf.
  repeat match goal with
         | |- context [decide (m = ?k)] =>
             destruct (decide (m = k)) as [->|?];
             [reflexivity | rewrite (proj2 (String.eqb_neq m k)) by assumption]
         end.
  reflexivity.
Qed.

Lemma handleRequest_handler d r action evs resp r' :
  handleRequest d r action = (evs, resp) ->
  In (EvHandler r') evs ->
  r' = r /\ exists h, Handler action = Some h /\ resp = h r.
Proof.
  unfold handleRequest. intros H Hin. branches; cbn in Hin;
    intuition (try discriminate);
    match goal with
    | E : EvHandler _ = EvHandler _ |- _ => injection E as <-
    end; eauto.
Qed.

Lemma dispatch_handler X d c r evs resp r' :
  dispatch X d c r = (evs, resp) ->
  In (EvHandler r') evs ->
  r' = r
  /\ exists a h, actionOf c (Method r) = Some a /\ Handler a = Some h /\ resp = h r.
Proof.
  unfold dispatch. rewrite actionOf_eqb. intros H Hin.
  repeat match type of H with
         | context [String.eqb (Method r) ?k] =>
             destruct (String.eqb (Method r) k)
         end;
    try (destruct (handleRequest_handler _ _ _ _ _ _ H Hin) as (-> & h & Hh & ->);
         split; [reflexivity | eauto]).
  injection H as <- _. destruct Hin.
Qed.

(** Admission itself calls no handler. *)
Lemma admission_no_handler X d version c r evs o r' :
  admission X d version c r = (evs, o) -> ~ In (EvHandler r') evs.
Proof.
  intros H Hin. pipeline; cbn in Hin; intuition discriminate.
Qed.

(** A handler call is a call with the admitted request, of the handler
    registered for its method, whose response is then rendered. *)
Lemma createCmd_handler X d version c r r' :
  In (EvHandler r') (createCmd X d version c r) ->
  exists evs a h,
    admission X d version c r = (evs, Some r')
    /\ actionOf c (Method r) = Some a
    /\ Handler a = Some h
    /\ In (EvRender (h r')) (createCmd X d version c r).
Proof.
  unfold createCmd.
  destruct (admission X d version c r) as [evs [r0|]] eqn:A; intros Hin.
  - apply in_app_or in Hin. destruct Hin as [Hin|Hin].
    + exfalso. exact (admission_no_handler _ _ _ _ _ _ _ _ A Hin).
    + unfold process in *.
      destruct (shutdownCancelled d && negb (allowedDuringShutdown version c r0)).
      * cbn in Hin. intuition discriminate.
      * unfold dispatched in *.
        destruct (dispatch X d c r0) as [evs' resp] eqn:D.
        apply in_app_or in Hin. destruct Hin as [Hin|Hin].
        -- destruct (dispatch_handler _ _ _ _ _ _ _ D Hin)
             as (-> & a & h & Ha & Hh & ->).
           exists evs, a, h. rewrite <- (admission_method _ _ _ _ _ _ _ A).
           repeat split; try assumption.
           apply in_or_app. right. apply in_or_app. right.
           unfold render. now left.
        -- unfold render in Hin. cbn in Hin.
           destruct (RenderErr X resp); cbn in Hin; intuition discriminate.
  - exfalso. exact (admission_no_handler _ _ _ _ _ _ _ _ A Hin).
Qed.

(** A request that admission lets through went through the trust check,
    past the setup check, the authentication and the internal check. *)
Lemma admission_stages X d version c r evs r' trusted username protocol err :
  admission X d version c r = (evs, Some r') ->
  Authenticate X d true r = (trusted, username, protocol, err) ->
  (setupChanClosed d = true \/ (RemoteAddr r = "@" /\ version = "internal"))
  /\ (forall msg, err <> Some (AuthError msg))
  /\ (version = "internal" ->
      protocol = "unix" \/ protocol = "cluster"
      \/ (trusted = true /\ protocol = "tls" /\ Path c = "cluster/accept"))
  /\ exists rest,
       evs = EvSetContentType :: EvAuthenticate :: rest
       /\ trustGate X d c r trusted username protocol = (rest, Some r').
Proof.
  intros H Hauth. unfold admission in H.
  assert (G : setupChanClosed d = true
              \/ (RemoteAddr r = "@" /\ version = "internal")).
  { destruct (String.eqb (RemoteAddr r) "@") eqn:E1;
      destruct (String.eqb version "internal") eqn:E2;
      destruct (setupChanClosed d); cbn in H; try discriminate; auto.
    apply eqb_true_iff in E1, E2. auto. }
  split; [exact G|].
  destruct (negb (String.eqb (RemoteAddr r) "@" && String.eqb version "internal")
            && negb (setupChanClosed d)); [discriminate|].
  unfold authenticated in H. rewrite Hauth in H.
  assert (N : forall msg, err <> Some (AuthError msg)).
  { intros msg ->. discriminate. }
  split; [exact N|].
  assert (H' : (let '(evs0, o) := internalGate X d version c r trusted username protocol
                in (EvSetContentType :: EvAuthenticate :: evs0, o))
               = (evs, Some r')).
  { destruct err as [[msg|msg]|]; [exfalso; exact (N msg eq_refl) | |];
      destruct (internalGate X d version c r trusted username protocol);
      exact H. }
  clear H. unfold internalGate in H'.
  destruct (String.eqb version "internal") eqn:Ev.
  - destruct (ValueInSlice protocol ["unix"; "cluster"]) eqn:Ep; cbn [negb andb] in H'.
    + split.
      * intros _. unfold ValueInSlice in Ep. cbn [existsb] in Ep.
        rewrite orb_false_r, orb_true_iff, !eqb_true_iff in Ep. tauto.
      * destruct (trustGate X d c r trusted username protocol) as [rest o].
        injection H' as <- ->. eauto.
    + destruct trusted; cbn [negb orb] in H'; [|discriminate].
      destruct (String.eqb (Path c) "cluster/accept") eqn:P;
        cbn [negb orb] in H'; [|discriminate].
      destruct (String.eqb protocol "tls") eqn:T; cbn [negb] in H'; [|discriminate].
      apply eqb_true_iff in P, T. split; [auto|].
      destruct (trustGate X d c r true username protocol) as [rest o].
      injection H' as <- ->. eauto.
  - cbn [andb] in H'. apply eqb_false_iff in Ev. split; [contradiction|].
    destruct (trustGate X d c r trusted username protocol) as [rest o].
    injection H' as <- ->. eauto.
Qed.

(** What the trust check lets through: the request of a trusted client,
    with its context, or the unchanged request of an untrusted one. *)
Lemma trustGate_passed X d c r trusted username protocol rest r' :
  trustGate X d c r trusted username protocol = (rest, Some r') ->
  (trusted = true
   /\ r' = WithContext r (authContext X r username protocol
                            (userAccess d protocol username).1))
  \/ (trusted = false /\ r' = r /\ UntrustedAllowed c r).
Proof.
  unfold trustGate. intros H. destruct trusted.
  - left. split; [reflexivity|].
    destruct (userAccess d protocol username) as [ua [e|]]; [discriminate|].
    apply debugDump_request in H. exact H.
  - right. split; [reflexivity|].
    destruct (untrustedOk c r
              && String.eqb (HeaderGet r "X-Incus-authenticated") "") eqn:U;
      [|discriminate].
    apply debugDump_request in H. split; [exact H|].
    unfold untrustedOk in U. unfold UntrustedAllowed.
    rewrite andb_true_iff, orb_true_iff, !andb_true_iff, !eqb_true_iff in U. tauto.
Qed.

(** No handler runs before the daemon is set up (the internal version
    over the Unix socket apart), nor before the request has been
    authenticated. *)
Theorem handler_after_setup_and_authentication (X : Externals) (d : Daemon)
    (version : string) (c : APIEndpoint) (r r' : Request) :
  In (EvHandler r') (createCmd X d version c r) ->
  (setupChanClosed d = true \/ (RemoteAddr r = "@" /\ version = "internal"))
  /\ exists rest,
       createCmd X d version c r = EvSetContentType :: EvAuthenticate :: rest
       /\ In (EvHandler r') rest.
Proof.
  intros Hin.
  destruct (createCmd_handler _ _ _ _ _ _ Hin) as (evs & a & h & A & _ & _ & _).
  destruct (Authenticate X d true r) as [[[trusted username] protocol] err] eqn:Au.
  destruct (admission_stages _ _ _ _ _ _ _ _ _ _ _ A Au)
    as (G & _ & _ & rest & -> & _).
  split; [exact G|].
  unfold createCmd in *. rewrite A in *. cbn [app] in *.
  eexists. split; [reflexivity|].
  destruct Hin as [Hin|[Hin|Hin]]; [discriminate..|exact Hin].
Qed.

(** The request a handler sees is the one received, with the identity of
    a trusted client in its context; for an untrusted client it is the
    request as received, and then only for a GET or POST whose action
    allows untrusted clients and without an X-Incus-authenticated
    header. *)
Theorem handler_request (X : Externals) (d : Daemon) (version : string)
    (c : APIEndpoint) (r r' : Request) (trusted : bool)
    (username protocol : string) (err : option error) :
  In (EvHandler r') (createCmd X d version c r) ->
  Authenticate X d true r = (trusted, username, protocol, err) ->
  (trusted = true
   /\ r' = WithContext r (authContext X r username protocol
                            (userAccess d protocol username).1))
  \/ (trusted = false /\ r' = r /\ UntrustedAllowed c r).
Proof.
  intros Hin Au.
  destruct (createCmd_handler _ _ _ _ _ _ Hin) as (evs & a & h & A & _ & _ & _).
  destruct (admission_stages _ _ _ _ _ _ _ _ _ _ _ A Au)
    as (_ & _ & _ & rest & _ & T).
  exact (trustGate_passed _ _ _ _ _ _ _ _ _ T).
Qed.

(** Handlers of the internal version run for the Unix socket and for
    cluster members only, but for the cluster/accept endpoint, which a
    trusted TLS client may call. *)
Theorem internal_handlers (X : Externals) (d : Daemon) (c : APIEndpoint)
    (r r' : Request) (trusted : bool) (username protocol : string)
    (err : option error) :
  In (EvHandler r') (createCmd X d "internal" c r) ->
  Authenticate X d true r = (trusted, username, protocol, err) ->
  protocol = "unix" \/ protocol = "cluster"
  \/ (trusted = true /\ protocol = "tls" /\ Path c = "cluster/accept").
Proof.
  intros Hin Au.
  destruct (createCmd_handler _ _ _ _ _ _ Hin) as (evs & a & h & A & _ & _ & _).
  destruct (admission_stages _ _ _ _ _ _ _ _ _ _ _ A Au) as (_ & _ & I & _).
  exact (I eq_refl).
Qed.

(** The handler that runs is the one registered for the method of the
    request, and its response is rendered. No handler runs for a method
    outside GET, HEAD, PUT, POST, DELETE and PATCH. *)
Theorem handler_of_method (X : Externals) (d : Daemon) (version : string)
    (c : APIEndpoint) (r r' : Request) :
  In (EvHandler r') (createCmd X d version c r) ->
  exists a h,
    actionOf c (Method r) = Some a
    /\ Handler a = Some h
    /\ In (EvRender (h r')) (createCmd X d version c r).
Proof.
  intros Hin.
  destruct (createCmd_handler _ _ _ _ _ _ Hin) as (evs & a & h & _ & Ha & Hh & Hr).
  eauto.
Qed.

(** An access handler decides alone: with [allowAuthenticated] the
    handler runs for every request that got this far, admin or not; with
    [allowProjectPermission] it runs exactly for admins and for users with
    permission on the project of the request, and the others get 403.
    Whether the action allows untrusted clients plays no part. *)
Theorem access_handlers (d : Daemon) (r : Request) (h : Request -> Response)
    (untrusted : bool) (projectParam : Request -> string)
    (UserHasPermission : Request -> string -> string -> bool) :
  handleRequest d r
    {| Handler := Some h; AccessHandler := Some (allowAuthenticated d);
       AllowUntrusted := untrusted |}
  = ([EvAccessHandler r; EvHandler r], h r)
  /\ handleRequest d r
       {| Handler := Some h;
          AccessHandler := Some (allowProjectPermission projectParam
                                   UserHasPermission d);
          AllowUntrusted := untrusted |}
     = if userIsAdmin d r || UserHasPermission r (projectParam r) ""
       then ([EvAccessHandler r; EvHandler r], h r)
       else ([EvAccessHandler r], ErrorResponse 403 None).
Proof.
  split; [reflexivity|].
  unfold handleRequest, allowProjectPermission. cbn.
  destruct (userIsAdmin d r); [reflexivity|].
  destruct (UserHasPermission r (projectParam r) ""); reflexivity.
Qed.

End PipelineExtra.

(** ** What [Authenticate] can answer *)
Module AuthExtra.
Import GoStrings Daemon Spec StringFacts AdmissionProofs AuthProofs.

(** A trusted answer comes without error and names one of the four
    protocols; an untrusted one names neither user nor protocol. *)
Theorem Authenticate_answers (X : Externals) (d : Daemon) (w : bool)
    (r : Request) (trusted : bool) (username protocol : string)
    (err : option error) :
  Authenticate X d w r = (trusted, username, protocol, err) ->
  (trusted = true ->
   err = None
   /\ (protocol = "cluster" \/ protocol = "unix" \/ protocol = "oidc"
       \/ protocol = "tls"))
  /\ (trusted = false -> username = "" /\ protocol = "").
Proof.
  unfold Authenticate. intros H. branches; split; intros T;
    try discriminate; auto 6.
Qed.

(** Without TLS only the Unix socket is trusted: [checkTrustedClient]
    accepts every request from it, and any other address is refused with
    an error, by [Authenticate] and by [checkTrustedClient] alike. *)
Theorem no_TLS_only_unix (X : Externals) (d : Daemon) (w : bool) (r : Request) :
  TLS r = None ->
  (RemoteAddr r = "@" -> checkTrustedClient X d r = None)
  /\ (RemoteAddr r <> "@" ->
      exists e,
        Authenticate X d w r = (false, "", "", Some e)
        /\ checkTrustedClient X d r = Some e).
Proof.
  intros Htls. split; intros Ha.
  - unfold checkTrustedClient, Authenticate, TLSisNil. rewrite Htls, Ha. reflexivity.
  - apply eqb_false_iff in Ha.
    assert (A : forall w', exists e, Authenticate X d w' r = (false, "", "", Some e)
                                     /\ forall w'', Authenticate X d w'' r
                                                    = (false, "", "", Some e)).
    { intros w'. unfold Authenticate, TLSisNil. rewrite Htls, Ha. cbn [andb].
      destruct (String.eqb (RemoteAddr r) "@dev_incus"); [eauto|].
      destruct (isClusterNotification X r); eauto. }
    destruct (A w) as (e & He & Hall). exists e. split; [exact He|].
    unfold checkTrustedClient. rewrite (Hall false). reflexivity.
Qed.

(** An OIDC request is the verifier's to decide: when no peer certificate
    is in the server-trust set and the earlier guards pass, the answer is
    that of the verifier, also for a client whose certificate is in the
    client-trust set. *)
Theorem oidc_before_client_certificates (X : Externals) (d : Daemon) (w : bool)
    (r : Request) (certs : list Certificate) (v : Verifier) :
  TLS r = Some certs ->
  firstMatch X d (clientCertsCertificates d TypeServer) false certs = None ->
  RemoteAddr r <> "@dev_incus" ->
  isClusterNotification X r = false ->
  oidcVerifier d = Some v ->
  IsRequest v r = true ->
  Authenticate X d w r
  = match Auth v r with
    | inl e => (false, "", "", Some e)
    | inr userName => (true, userName, "oidc", None)
    end.
Proof.
  intros Htls Hserver Hdev Hnotif Hv Hreq.
  unfold Authenticate, TLSisNil.
  rewrite Htls, firstTrusted_firstMatch, Hserver, andb_false_r.
  apply eqb_false_iff in Hdev. rewrite Hdev, Hnotif, Hv, Hreq. reflexivity.
Qed.

End AuthExtra.

(** ** What a heartbeat changes *)
Module HeartbeatExtra.
Import GoStrings Daemon Spec Observers HeartbeatProofs.

(** The raft nodes of a heartbeat all have a raft ID above 0, are no more
    than its members, and are none exactly when no member has such an
    ID. *)
Theorem extractRaftNodes_members (members : list (Z * APIHeartbeatMember)) :
  Forall (fun node => 0 < RaftNodeID node) (extractRaftNodes members)
  /\ (length (extractRaftNodes members) <= length members)%nat
  /\ (extractRaftNodes members = []
      <-> forall id m, (id, m) ∈ members -> MemberRaftID m <= 0).
Proof.
  split; [|split].
  - induction members as [|[id m] rest IH]; cbn [extractRaftNodes]; [constructor|].
    destruct (0 <? MemberRaftID m) eqn:E; [|exact IH].
    constructor; [cbn; now apply Z.ltb_lt | exact IH].
  - induction members as [|[id m] rest IH]; cbn [extractRaftNodes length]; [lia|].
    destruct (0 <? MemberRaftID m); cbn [length]; lia.
  - split; [|apply extractRaftNodes_none].
    induction members as [|[id m] rest IH]; cbn [extractRaftNodes]; intros H id' m' Hin.
    + apply elem_of_nil in Hin. contradiction.
    + destruct (0 <? MemberRaftID m) eqn:E; [discriminate|].
      apply Z.ltb_ge in E. apply elem_of_cons in Hin. destruct Hin as [Heq|Hin].
      * injection Heq as -> ->. exact E.
      * exact (IH H id' m' Hin).
Qed.

(** A heartbeat with raft nodes whose transaction succeeds replaces the
    raft-node table by them, whoever sent it and whatever its kind: also
    the partial heartbeat to a leader, which is answered with 400 after
    the table has been replaced. *)
Theorem raft_table_replaced (X : Externals) (env : HeartbeatEnv) (d : Daemon)
    (isLeader : bool) (hb : APIHeartbeat) :
  extractRaftNodes (Members hb) <> [] ->
  replaceRaftNodesErr env = None ->
  raftNodes (heartbeatHandler X env d isLeader hb).1 = extractRaftNodes (Members hb)
  /\ In (FxReplaceRaftNodes (extractRaftNodes (Members hb)))
       (heartbeatHandler X env d isLeader hb).2
  /\ (isLeader = true -> FullStateList hb = false ->
      List.last (heartbeatHandler X env d isLeader hb).2 FxHeartbeatRestart
      = FxHTTPError "400 Partial heartbeat should not be sent to leader" 400).
Proof.
  intros Hn He. unfold heartbeatHandler.
  destruct (timeSkewCheck X env d hb) as [d1 fx].
  destruct (extractRaftNodes (Members hb)) as [|n l] eqn:E; [congruence|].
  cbn [length]. rewrite He.
  replace (Z.of_nat (S (length l)) <=? 0) with false
    by (symmetry; apply Z.leb_gt; lia).
  repeat match goal with |- context [if ?b then _ else _] => destruct b end;
    cbn [fst snd raftNodes ReplaceRaftNodes];
    (split; [reflexivity|]);
    (split; [rewrite <- ?app_assoc; apply in_or_app; right; now left|]);
    intros; try discriminate;
    rewrite <- ?app_assoc; rewrite List.last_last || (rewrite app_assoc, List.last_last);
    reflexivity.
Qed.

(** A heartbeat whose transaction fails is answered with 500: the
    raft-node table stays as it was, and neither a heartbeat restart nor a
    refresh task follows. *)
Theorem failed_transaction (X : Externals) (env : HeartbeatEnv) (d : Daemon)
    (isLeader : bool) (hb : APIHeartbeat) (err : error) :
  extractRaftNodes (Members hb) <> [] ->
  replaceRaftNodesErr env = Some err ->
  raftNodes (heartbeatHandler X env d isLeader hb).1 = raftNodes d
  /\ List.last (heartbeatHandler X env d isLeader hb).2 FxHeartbeatRestart
     = FxHTTPError "500 failed to update raft nodes" 500
  /\ existsb isRefreshSpawn (heartbeatHandler X env d isLeader hb).2 = false
  /\ existsb isHeartbeatRestart (heartbeatHandler X env d isLeader hb).2 = false.
Proof.
  intros Hn He. unfold heartbeatHandler, timeSkewCheck.
  destruct (extractRaftNodes (Members hb)) as [|n l] eqn:E; [congruence|].
  cbn [length]. rewrite He.
  replace (Z.of_nat (S (length l)) <=? 0) with false
    by (symmetry; apply Z.leb_gt; lia).
  repeat match goal with |- context [if ?b then _ else _] => destruct b end;
    cbn; auto.
Qed.

(** The refresh task is started exactly for a full-state heartbeat with
    raft nodes whose transaction succeeded, unless this member is the
    leader and a heartbeat round was restarted instead. *)
Theorem refresh_task_started (X : Externals) (env : HeartbeatEnv) (d : Daemon)
    (isLeader : bool) (hb : APIHeartbeat) :
  existsb isRefreshSpawn (heartbeatHandler X env d isLeader hb).2 = true
  <-> extractRaftNodes (Members hb) <> []
      /\ replaceRaftNodesErr env = None
      /\ FullStateList hb = true
      /\ (isLeader = false \/ heartbeatRestart env = false).
Proof.
  unfold heartbeatHandler, timeSkewCheck.
  destruct (extractRaftNodes (Members hb)) as [|n l] eqn:E.
  - change (Z.of_nat (length (@nil RaftNode)) <=? 0) with true. cbn iota.
    repeat match goal with |- context [if ?b then _ else _] => destruct b end;
      cbn; (split; [discriminate|]); intros [H _]; exfalso; apply H; reflexivity.
  - cbn [length].
    replace (Z.of_nat (S (length l)) <=? 0) with false
      by (symmetry; apply Z.leb_gt; lia).
    destruct (replaceRaftNodesErr env), (FullStateList hb), isLeader,
      (heartbeatRestart env); cbn [negb];
      repeat match goal with |- context [if ?b then _ else _] => destruct b end;
      cbn; split; intros H; try discriminate; try reflexivity;
      try (repeat split; auto; discriminate);
      try (destruct H as (_ & H1 & H2 & [H3|H3]); discriminate).
Qed.

Lemma heartbeats_app X d run1 run2 :
  heartbeats X d (run1 ++ run2)
  = ((heartbeats X (heartbeats X d run1).1 run2).1,
     (heartbeats X d run1).2 ++ (heartbeats X (heartbeats X d run1).1 run2).2).
Proof.
  revert d. induction run1 as [|[[env isLeader] hb] rest IH]; intros d.
  - cbn. now destruct (heartbeats X d run2).
  - cbn [app heartbeats].
    destruct (heartbeatHandler X env d isLeader hb) as [d1 fx1].
    rewrite IH. destruct (heartbeats X d1 rest) as [d2 fx2]. cbn [fst snd].
    now rewrite app_assoc.
Qed.

(** One heartbeat: the flag afterwards tells whether this heartbeat was
    skewed, and the cluster database is as open as before. *)
Lemma heartbeat_flag X env d isLeader hb :
  (timeSkew (heartbeatHandler X env d isLeader hb).1 = true <-> skewed env hb)
  /\ dbCluster (heartbeatHandler X env d isLeader hb).1 = dbCluster d.
Proof.
  destruct (heartbeatHandler_after_check X env d isLeader hb)
    as (tail & _ & Hflag & Hc & _ & _).
  split; [|exact Hc]. rewrite Hflag.
  destruct (classic_skew env hb) as [S|S].
  - rewrite (timeSkewCheck_skewed _ _ _ _ S). cbn. tauto.
  - rewrite (timeSkewCheck_in_window _ _ _ _ S).
    destruct (timeSkew d) eqn:T; cbn; rewrite ?T; split;
      intros; try discriminate; contradiction.
Qed.

(** After any run of heartbeats the flag [timeSkew] tells whether the
    last one was skewed, whatever came before. *)
Theorem flag_follows_last_heartbeat (X : Externals) (d : Daemon)
    (run : list (HeartbeatEnv * bool * APIHeartbeat)) (env : HeartbeatEnv)
    (isLeader : bool) (hb : APIHeartbeat) :
  timeSkew (heartbeats X d (run ++ [(env, isLeader, hb)])).1 = true
  <-> skewed env hb.
Proof.
  rewrite heartbeats_app. cbn [fst heartbeats].
  destruct (heartbeatHandler X env (heartbeats X d run).1 isLeader hb)
    as [d1 fx1] eqn:E. cbn [fst].
  pose proof (heartbeat_flag X env (heartbeats X d run).1 isLeader hb) as [F _].
  rewrite E in F. exact F.
Qed.

Lemma warningsAlternate_skip pending fx rest :
  existsb isUpsertWarning fx = false ->
  existsb isResolveWarnings fx = false ->
  warningsAlternate pending (fx ++ rest) = warningsAlternate pending rest.
Proof.
  induction fx as [|x l IH]; intros U R; [reflexivity|].
  cbn in U, R. apply orb_false_iff in U, R. destruct U as [Ux U], R as [Rx R].
  destruct x; try discriminate; cbn; auto.
Qed.

(** With the cluster database open, a warning is written only when none
    is outstanding and resolved only when one is, over any run of
    heartbeats: the trace never has two writes, or two resolutions, in a
    row. *)
Theorem warnings_alternate (X : Externals) (d : Daemon)
    (run : list (HeartbeatEnv * bool * APIHeartbeat)) :
  dbCluster d = true ->
  warningsAlternate (timeSkew d) (heartbeats X d run).2 = true.
Proof.
  revert d. induction run as [|[[env isLeader] hb] rest IH]; intros d Hc;
    [reflexivity|].
  cbn [heartbeats].
  destruct (heartbeatHandler_after_check X env d isLeader hb)
    as (tail & Hfx & Hflag & Hc' & Hup & Hres).
  destruct (heartbeatHandler X env d isLeader hb) as [d1 fx1].
  cbn [fst snd] in *. subst fx1.
  specialize (IH d1 (eq_trans Hc' Hc)).
  destruct (heartbeats X d1 rest) as [d2 fx2]. cbn [snd] in *.
  rewrite Hflag in IH. rewrite <- app_assoc.
  unfold timeSkewCheck in *.
  destruct ((Time hb + 5 * Second <? now env)
            || (now env <? Time hb + (-5) * Second));
    destruct (timeSkew d) eqn:T;
    cbn [fst snd timeSkew setTimeSkew] in *;
    rewrite ?T, ?Hc in *; cbn;
    rewrite warningsAlternate_skip by assumption; exact IH.
Qed.

End HeartbeatExtra.

(** ** Member state and the refresh task *)
Module RefreshExtra.
Import GoStrings Daemon Spec Refresh.

Lemma memberAt_elem hb id m :
  NoDup (Members hb).*1 -> (id, m) ∈ Members hb -> memberAt hb id = m.
Proof.
  intros Hnd Hin. unfold memberAt.
  now rewrite (elem_of_list_to_map_1 _ _ _ Hnd Hin).
Qed.

(** What "no change" means: the same number of members, and for every
    member of the last heartbeat the same address and state under its ID
    in the new one. *)
Lemma unchanged_spec last hb :
  hasMemberStateChanged (Some last) hb = false
  <-> length (Members last) = length (Members hb)
      /\ forall id m, (id, m) ∈ Members last ->
                      MemberAddress (memberAt hb id) = MemberAddress m
                      /\ MemberOnline (memberAt hb id) = MemberOnline m.
Proof.
  unfold hasMemberStateChanged.
  destruct (Nat.eqb (length (Members last)) (length (Members hb))) eqn:L; cbn [negb].
  - apply Nat.eqb_eq in L. split.
    + intros H. split; [exact L|]. intros id m Hin.
      rewrite <- not_true_iff_false, existsb_exists in H.
      destruct (String.eqb (MemberAddress (memberAt hb id)) (MemberAddress m)) eqn:A;
        destruct (Bool.eqb (MemberOnline (memberAt hb id)) (MemberOnline m)) eqn:O;
        try (exfalso; apply H; exists (id, m);
             split; [now apply list_elem_of_In | cbn; rewrite A, O; reflexivity]).
      apply String.eqb_eq in A. apply Bool.eqb_prop in O. auto.
    + intros [_ H]. apply not_true_iff_false. rewrite existsb_exists.
      intros [[id m] [Hin Hx]]. apply list_elem_of_In in Hin.
      destruct (H id m Hin) as [A O]. cbn in Hx.
      rewrite A, O, String.eqb_refl, Bool.eqb_reflx in Hx. discriminate.
  - apply Nat.eqb_neq in L. split; [discriminate | tauto].
Qed.

(** A heartbeat that repeats the last one is no change of member state;
    without a last one, every heartbeat is a change. *)
Theorem same_heartbeat_unchanged (hb : APIHeartbeat) :
  NoDup (Members hb).*1 ->
  hasMemberStateChanged (Some hb) hb = false
  /\ hasMemberStateChanged None hb = true.
Proof.
  intros Hnd. split; [|reflexivity]. apply unchanged_spec.
  split; [reflexivity|]. intros id m Hin.
  now rewrite (memberAt_elem _ _ _ Hnd Hin).
Qed.

(** When no change is reported and every member of the last heartbeat had
    an address, the new heartbeat has the very same member IDs, each with
    the address and state it had. *)
Theorem unchanged_same_members (last hb : APIHeartbeat) :
  NoDup (Members last).*1 ->
  (forall id m, (id, m) ∈ Members last -> MemberAddress m <> "") ->
  hasMemberStateChanged (Some last) hb = false ->
  (forall id, id ∈ (Members last).*1 <-> id ∈ (Members hb).*1)
  /\ forall id m, (id, m) ∈ Members last ->
                  MemberAddress (memberAt hb id) = MemberAddress m
                  /\ MemberOnline (memberAt hb id) = MemberOnline m.
Proof.
  intros Hnd Haddr H. apply unchanged_spec in H. destruct H as [L H].
  split; [|exact H].
  assert (Sub : forall id, id ∈ (Members last).*1 -> id ∈ (Members hb).*1).
  { intros id Hin. apply list_elem_of_fmap in Hin.
    destruct Hin as [[id' m] [-> Hin]]. cbn.
    destruct (H id' m Hin) as [A _].
    destruct (decide (id' ∈ (Members hb).*1)) as [Y|N]; [exact Y|].
    exfalso. apply (Haddr id' m Hin). rewrite <- A. unfold memberAt.
    apply not_elem_of_list_to_map_1 in N. now rewrite N. }
  intros id. split; [apply Sub|].
  intros Hin. apply list_elem_of_In. apply list_elem_of_In in Hin.
  revert id Hin. apply NoDup_length_incl.
  - apply NoDup_ListNoDup, Hnd.
  - rewrite !length_fmap. lia.
  - intros id Hin. apply list_elem_of_In, Sub, list_elem_of_In, Hin.
Qed.

(** The count of running instances is zero exactly when none runs, and
    never more than there are instances. *)
Theorem numRunningInstances_zero (instances : list Instance) :
  0 <= numRunningInstances instances <= Z.of_nat (length instances)
  /\ (numRunningInstances instances <= 0
      <-> Forall (fun i => IsRunning i = false) instances).
Proof.
  induction instances as [|i rest [IHb IHz]]; cbn [numRunningInstances length].
  - split; [lia|]. split; [constructor | lia].
  - destruct (IsRunning i) eqn:R.
    + split; [lia|]. split; [lia|].
      intros H. apply Forall_cons in H. destruct H as [H _]. congruence.
    + split; [lia|]. rewrite IHz. split.
      * intros H. constructor; assumption.
      * intros H. apply Forall_cons in H. tauto.
Qed.

(** The membership mutex is held around every rebalance and every role
    upgrade of the refresh task, is never taken twice, and is free when
    the task returns. *)
Theorem refresh_lock_discipline (env : RefreshEnv) (d : Daemon)
    (lastNodeList : option VersionedHeartbeat)
    (heartbeatData : VersionedHeartbeat) (isLeader : bool)
    (unavailableMembers : option (list string)) :
  lockDiscipline false
    (nodeRefreshTask env d lastNodeList heartbeatData isLeader
       unavailableMembers).2 = true.
Proof.
  unfold nodeRefreshTask, roleUpdates.
  repeat match goal with
         | |- context [if ?b then _ else _] => destruct b
         | |- context [match ?o with Some _ => _ | None => _ end] => destruct o
         end; reflexivity.
Qed.

(** The last heartbeat is replaced only by the heartbeat just processed,
    and only when the OVN chassis update succeeded on an initialised
    cluster database; when that update fails the old one is kept, so that
    the next heartbeat tries again. *)
Theorem lastNodeList_replaced (env : RefreshEnv) (d : Daemon)
    (lastNodeList : option VersionedHeartbeat)
    (heartbeatData : VersionedHeartbeat) (isLeader : bool)
    (unavailableMembers : option (list string)) :
  ((nodeRefreshTask env d lastNodeList heartbeatData isLeader
      unavailableMembers).1 <> lastNodeList ->
   (nodeRefreshTask env d lastNodeList heartbeatData isLeader
      unavailableMembers).1 = Some heartbeatData
   /\ updateOVNChassisErr env = None
   /\ dbCluster d = true /\ nodeID env <> 0
   /\ FullStateList (Heartbeat heartbeatData) = true
   /\ Members (Heartbeat heartbeatData) <> [])
  /\ (updateOVNChassisErr env <> None ->
      (nodeRefreshTask env d lastNodeList heartbeatData isLeader
         unavailableMembers).1 = lastNodeList).
Proof.
  unfold nodeRefreshTask.
  destruct (dbCluster d); cbn [negb orb];
    [|split; [intros H; now contradiction H | reflexivity]].
  destruct (nodeID env =? 0) eqn:N;
    [split; [intros H; now contradiction H | reflexivity]|].
  apply Z.eqb_neq in N.
  destruct (FullStateList (Heartbeat heartbeatData)); cbn [negb orb];
    [|split; [intros H; now contradiction H | reflexivity]].
  destruct (Members (Heartbeat heartbeatData)) as [|m ms] eqn:M;
    [split; [intros H; now contradiction H | reflexivity]|].
  replace (Z.of_nat (length (m :: ms)) <=? 0) with false
    by (symmetry; apply Z.leb_gt; cbn [length]; lia).
  match goal with
  | |- context [match (if ?v then maybeUpdateErr env else None) with _ => _ end] =>
      destruct (if v then maybeUpdateErr env else None)
  end; [split; [intros H; now contradiction H | reflexivity]|].
  destruct (updateOVNChassisErr env); cbn [fst negb].
  - split; [intros H; now contradiction H | reflexivity].
  - split; [|intros H; now contradiction H].
    intros _. repeat split; (assumption || discriminate).
Qed.





End RefreshExtra.

(** ** Shared mounts, once more *)
Module MountExtra.
Import GoStrings Daemon Spec.

(** When the tmpfs got mounted but could not be marked shared, the call
    fails; every later call then finds the mount point, sets the flag and
    returns nil without mounting: the mount is never marked shared. *)
Theorem half_mounted_never_shared (X : Externals) (env : MountEnv)
    (st : MountState) (err : error) :
  SharedMountsSetup st = false ->
  IsMountPoint st (VarPath X "shmounts") = false ->
  mountTmpfsErr env = None ->
  mountSharedErr env = Some err ->
  (setupSharedMounts X env st).1.2 = Some err
  /\ forall env',
       setupSharedMounts X env' (setupSharedMounts X env st).1.1
       = ({| SharedMountsSetup := true;
             mountPoints := {[ VarPath X "shmounts" ]} ∪ mountPoints st |},
          None, []).
Proof.
  intros F M T S. unfold setupSharedMounts at 1 3. rewrite F, M, T, S.
  cbn [fst snd]. split; [reflexivity|]. intros env'.
  unfold setupSharedMounts, IsMountPoint. cbn.
  assert (B : bool_decide (VarPath X "shmounts"
                           ∈ ({[VarPath X "shmounts"]} ∪ mountPoints st : gset string))
              = true).
  { apply bool_decide_eq_true. set_solver. }
  now rewrite B.
Qed.

(** A call never clears the flag, never loses a mount point, makes two
    mounts at most and none when the flag is set or the mount point is
    there, and leaves the flag unset when it fails. *)
Theorem setupSharedMounts_steps (X : Externals) (env : MountEnv)
    (st : MountState) :
  (SharedMountsSetup st = true ->
   SharedMountsSetup (setupSharedMounts X env st).1.1 = true)
  /\ mountPoints st ⊆ mountPoints (setupSharedMounts X env st).1.1
  /\ (length (setupSharedMounts X env st).2 <= 2)%nat
  /\ ((setupSharedMounts X env st).2 <> [] ->
      SharedMountsSetup st = false
      /\ IsMountPoint st (VarPath X "shmounts") = false)
  /\ ((setupSharedMounts X env st).1.2 <> None ->
      SharedMountsSetup (setupSharedMounts X env st).1.1 = false).
Proof.
  unfold setupSharedMounts.
  destruct (SharedMountsSetup st) eqn:F.
  { cbn. repeat split; auto; try lia; try set_solver; intros H; now contradiction H. }
  destruct (IsMountPoint st (VarPath X "shmounts")) eqn:M.
  { cbn. repeat split; auto; try lia; try set_solver; intros H; now contradiction H. }
  destruct (mountTmpfsErr env), (mountSharedErr env); cbn;
    repeat split; auto; try lia; try set_solver; try discriminate;
    intros H; now contradiction H.
Qed.

End MountExtra.

(** ** The further properties at work *)
Module ExtraScenarios.
Import GoStrings Project Daemon Spec Refresh Observers ProjectRecords.
Import Samples MoreSamples.
Import RecordsExtra PipelineExtra AuthExtra HeartbeatExtra RefreshExtra MountExtra.

(** A custom volume of a project with its own volumes. *)
Lemma StorageVolumeProject_agrees_witness :
  StorageVolumeProject projectEnv "web" 2
  = inr (StorageVolumeProjectFromRecord projectEnv webProject 2).
Proof.
  apply (StorageVolumeProject_agrees projectEnv "web" 2 webProject); reflexivity.
Defined.

Example custom_volume_of_web : StorageVolumeProject projectEnv "web" 2 = inr "web".
Proof. reflexivity. Qed.

Example image_volume_of_missing_project :
  StorageVolumeProject projectEnv "ghost" 1 = inr "default".
Proof. reflexivity. Qed.

(** A custom volume of a project that does not exist. *)
Lemma StorageVolumeProject_failure_witness :
  2 = StoragePoolVolumeTypeCustom projectEnv
  /\ 2 <> StoragePoolVolumeTypeImage projectEnv
  /\ exists cause,
       loadProject projectEnv "ghost" = inl cause
       /\ ErrorString "Failed to load project 'ghost': Project not found"
          = failedToLoad projectEnv "ghost" cause.
Proof.
  apply (StorageVolumeProject_failure projectEnv "ghost" 2
           (ErrorString "Failed to load project 'ghost': Project not found")).
  reflexivity.
Defined.

(** The profiles of "web" are its own. *)
Lemma ProfileProject_result_witness :
  ProfileProject projectEnv "web" = inr webProject.
Proof.
  apply (proj2 (ProfileProject_result projectEnv "web" webProject)).
  split; [reflexivity|]. split; [reflexivity|].
  exists {| DbProjectName := "web" |}, webProject.
  split; [reflexivity|]. split; [reflexivity|].
  left. split; [discriminate | reflexivity].
Defined.

(** The default project's profiles are loaded from the default project. *)
Example ProfileProject_default :
  ProfileProject projectEnv "default" = inr defaultProject.
Proof. reflexivity. Qed.

(** A project that does not exist has no profile project. *)
Example ProfileProject_missing :
  ProfileProject projectEnv "ghost"
  = inl (ErrorString "Failed loading project 'ghost': Project not found").
Proof. reflexivity. Qed.

Lemma NetworkAllowed_managed_witness :
  NetworkAllowed projectEnv openConfig "br0" true = true.
Proof.
  apply (NetworkAllowed_managed projectEnv openConfig "br0"). reflexivity.
Defined.

Lemma clientGet_handled :
  In (EvHandler clientGetAdmitted)
    (createCmd externals (daemon true false None) "1.0" instances clientGet).
Proof. right. right. left. reflexivity. Defined.

Lemma unixGet_handled :
  In (EvHandler unixGetAdmitted)
    (createCmd externals (daemon false false None) "internal"
       (endpoint "ready" false) unixGet).
Proof. right. right. left. reflexivity. Defined.

Lemma handler_after_setup_and_authentication_witness :
  (setupChanClosed (daemon true false None) = true
   \/ (RemoteAddr clientGet = "@" /\ "1.0" = "internal"))
  /\ exists rest,
       createCmd externals (daemon true false None) "1.0" instances clientGet
       = EvSetContentType :: EvAuthenticate :: rest
       /\ In (EvHandler clientGetAdmitted) rest.
Proof.
  apply (handler_after_setup_and_authentication externals (daemon true false None)
           "1.0" instances clientGet clientGetAdmitted).
  exact clientGet_handled.
Defined.

Lemma handler_request_witness :
  (true = true
   /\ clientGetAdmitted
      = WithContext clientGet
          (authContext externals clientGet "client-1" "tls"
             (userAccess (daemon true false None) "tls" "client-1").1))
  \/ (true = false /\ clientGetAdmitted = clientGet
      /\ UntrustedAllowed instances clientGet).
Proof.
  apply (handler_request externals (daemon true false None) "1.0" instances
           clientGet clientGetAdmitted true "client-1" "tls" None).
  - exact clientGet_handled.
  - reflexivity.
Defined.

Lemma internal_handlers_witness :
  "unix" = "unix" \/ "unix" = "cluster"
  \/ (true = true /\ "unix" = "tls" /\ Path (endpoint "ready" false) = "cluster/accept").
Proof.
  apply (internal_handlers externals (daemon false false None)
           (endpoint "ready" false) unixGet unixGetAdmitted true "root" "unix" None).
  - exact unixGet_handled.
  - reflexivity.
Defined.

Lemma handler_of_method_witness :
  exists a h,
    actionOf instances (Method clientGet) = Some a
    /\ Handler a = Some h
    /\ In (EvRender (h clientGetAdmitted))
         (createCmd externals (daemon true false None) "1.0" instances clientGet).
Proof.
  apply (handler_of_method externals (daemon true false None) "1.0" instances
           clientGet clientGetAdmitted).
  exact clientGet_handled.
Defined.

Lemma Authenticate_answers_witness :
  (None : option error) = None
  /\ ("tls" = "cluster" \/ "tls" = "unix" \/ "tls" = "oidc" \/ "tls" = "tls").
Proof.
  apply (proj1 (Authenticate_answers externals (daemon true false None) true
                  clientGet true "client-1" "tls" None eq_refl)).
  reflexivity.
Defined.

Lemma no_TLS_only_unix_witness :
  checkTrustedClient externals (daemon true false None) unixGet = None.
Proof.
  apply (proj1 (no_TLS_only_unix externals (daemon true false None) true unixGet
                  eq_refl)).
  reflexivity.
Defined.

(** A request over plain TCP is refused. *)
Example plain_tcp_refused :
  checkTrustedClient externals (daemon true false None)
    (request remote None "GET" "/1.0" ∅)
  = Some (ErrorString "Bad/missing TLS on network query").
Proof. reflexivity. Qed.

(** A bad token is refused although the certificate is trusted. *)
Lemma oidc_before_client_certificates_witness :
  Authenticate externals oidcDaemon true badTokenGet
  = match Auth verifier badTokenGet with
    | inl e => (false, "", "", Some e)
    | inr userName => (true, userName, "oidc", None)
    end.
Proof.
  apply (oidc_before_client_certificates externals oidcDaemon true badTokenGet
           [clientCert] verifier).
  - reflexivity.
  - reflexivity.
  - discriminate.
  - reflexivity.
  - reflexivity.
  - reflexivity.
Defined.

Example bad_token_401 :
  createCmd externals oidcDaemon "1.0" instances badTokenGet
  = [EvSetContentType; EvAuthenticate; EvWriteOIDCHeaders;
     EvRender (ErrorResponse 401 (Some "invalid token"))].
Proof. vm_compute. reflexivity. Qed.

(** A partial heartbeat sent to the leader. *)
Lemma raft_table_replaced_witness :
  raftNodes (heartbeatHandler externals (clock 0) (daemon true false None) true
               (heartbeat 0 [(1, member 1)])).1
  = extractRaftNodes [(1, member 1)]
  /\ List.last (heartbeatHandler externals (clock 0) (daemon true false None) true
                  (heartbeat 0 [(1, member 1)])).2 FxHeartbeatRestart
     = FxHTTPError "400 Partial heartbeat should not be sent to leader" 400.
Proof.
  destruct (raft_table_replaced externals (clock 0) (daemon true false None) true
              (heartbeat 0 [(1, member 1)])) as (H1 & _ & H3).
  - discriminate.
  - reflexivity.
  - split; [exact H1 | apply H3; reflexivity].
Defined.

Lemma failed_transaction_witness :
  raftNodes (heartbeatHandler externals failingClock (daemon true false None) false
               twoMembers).1 = []
  /\ List.last (heartbeatHandler externals failingClock (daemon true false None)
                  false twoMembers).2 FxHeartbeatRestart
     = FxHTTPError "500 failed to update raft nodes" 500.
Proof.
  destruct (failed_transaction externals failingClock (daemon true false None) false
              twoMembers (ErrorString "database is locked")) as (H1 & H2 & _).
  - discriminate.
  - reflexivity.
  - split; [exact H1 | exact H2].
Defined.

Lemma warnings_alternate_witness :
  warningsAlternate false
    (heartbeats externals (daemon true false None)
       [(clock 0, false, heartbeat (10 * Second) [(1, member 1)]);
        (clock 0, false, heartbeat (20 * Second) [(1, member 1)]);
        (clock 0, false, heartbeat Second [(1, member 1)])]).2 = true.
Proof.
  apply (warnings_alternate externals (daemon true false None)). reflexivity.
Defined.

Lemma twoMembers_NoDup : NoDup (Members twoMembers).*1.
Proof.
  apply NoDup_cons. split.
  - intros H. apply elem_of_cons in H. destruct H as [H|H]; [discriminate|].
    apply elem_of_nil in H. exact H.
  - apply NoDup_cons. split.
    + intros H. apply elem_of_nil in H. exact H.
    + apply NoDup_nil. exact I.
Defined.

Lemma same_heartbeat_unchanged_witness :
  hasMemberStateChanged (Some twoMembers) twoMembers = false
  /\ hasMemberStateChanged None twoMembers = true.
Proof. apply (same_heartbeat_unchanged twoMembers). exact twoMembers_NoDup. Defined.

Lemma unchanged_same_members_witness :
  (2 ∈ (Members twoMembers).*1 <-> 2 ∈ (Members twoMembersReordered).*1)
  /\ MemberAddress (memberAt twoMembersReordered 2) = MemberAddress offlineVoter.
Proof.
  assert (H : (forall id, id ∈ (Members twoMembers).*1
                          <-> id ∈ (Members twoMembersReordered).*1)
              /\ forall id m, (id, m) ∈ Members twoMembers ->
                   MemberAddress (memberAt twoMembersReordered id) = MemberAddress m
                   /\ MemberOnline (memberAt twoMembersReordered id) = MemberOnline m);
    [|split; [exact (proj1 H 2)|];
      refine (proj1 (proj2 H 2 offlineVoter _));
      apply elem_of_cons; right; apply elem_of_cons; now left].
  apply (unchanged_same_members twoMembers twoMembersReordered).
  - exact twoMembers_NoDup.
  - intros id m H. apply elem_of_cons in H. destruct H as [H|H].
    + injection H as _ ->. discriminate.
    + apply elem_of_cons in H. destruct H as [H|H].
      * injection H as _ ->. discriminate.
      * apply elem_of_nil in H. contradiction.
  - reflexivity.
Defined.

(** A member that went offline is a change. *)
Example offline_is_a_change :
  hasMemberStateChanged
    (Some (heartbeat 0 [(1, member 1); (2, member 2)])) twoMembers = true.
Proof. reflexivity. Qed.

(** A failed OVN update keeps the last heartbeat. *)
Lemma lastNodeList_replaced_witness :
  (nodeRefreshTask (refreshEnv (Some (ErrorString "ovn"))) (daemon true false None)
     None (versioned twoMembers) true (Some [])).1 = None.
Proof.
  apply (proj2 (lastNodeList_replaced (refreshEnv (Some (ErrorString "ovn")))
                  (daemon true false None) None (versioned twoMembers) true
                  (Some []))).
  discriminate.
Defined.

Example refresh_on_leader :
  nodeRefreshTask (refreshEnv None) (daemon true false None) None
    (versioned twoMembers) true (Some ["10.0.0.2:8443"])
  = (Some (versioned twoMembers),
     [RxMaybeUpdate; RxUpdateOVNChassis; RxUpdateCertificateCache;
      RxGoEventsUpdateListeners;
      RxLock; RxRebalanceMemberRoles ["10.0.0.2:8443"]; RxUnlock; RxWait]).
Proof. reflexivity. Qed.


Lemma half_mounted_never_shared_witness :
  (setupSharedMounts externals sharedFails freshHost).1.2
  = Some (ErrorString "operation not permitted")
  /\ setupSharedMounts externals mountsWork
       (setupSharedMounts externals sharedFails freshHost).1.1
     = ({| SharedMountsSetup := true;
           mountPoints := {[ VarPath externals "shmounts" ]} ∪ mountPoints freshHost |},
        None, []).
Proof.
  destruct (half_mounted_never_shared externals sharedFails freshHost
              (ErrorString "operation not permitted")) as [H1 H2];
    [reflexivity..|].
  split; [exact H1 | exact (H2 mountsWork)].
Defined.

Lemma setupSharedMounts_steps_witness :
  SharedMountsSetup
    (setupSharedMounts externals sharedFails freshHost).1.1 = false.
Proof.
  apply (proj2 (proj2 (proj2 (proj2
           (setupSharedMounts_steps externals sharedFails freshHost))))).
  discriminate.
Defined.

(** The default project, for a custom volume. *)
Lemma default_project_effective_witness :
  StorageVolumeProjectFromRecord projectEnv defaultProject 2 = Default
  /\ StorageBucketProjectFromRecord projectEnv defaultProject = Default
  /\ NetworkProjectFromRecord projectEnv defaultProject = Default
  /\ ProfileProjectFromRecord projectEnv defaultProject = Default
  /\ NetworkZoneProjectFromRecord projectEnv defaultProject = Default.
Proof.
  apply (default_project_effective projectEnv defaultProject 2). reflexivity.
Defined.

End ExtraScenarios.

(** ** Header names *)
Module HeaderFacts.
Import GoStrings Daemon Spec Refresh Samples MoreSamples.
Import AdmissionProofs PipelineExtra.

Example canonical_authenticated :
  CanonicalMIMEHeaderKey "X-Incus-authenticated" = "X-Incus-Authenticated".
Proof. reflexivity. Qed.

Example canonical_forwarded :
  CanonicalMIMEHeaderKey "x-incus-FORWARDED-address" = "X-Incus-Forwarded-Address".
Proof. reflexivity. Qed.

Example canonical_invalid_unchanged :
  CanonicalMIMEHeaderKey "x incus" = "x incus".
Proof. reflexivity. Qed.

(** [Header.Get] reads the header the server stored, however the name is
    spelled in the call. *)
Lemma HeaderGet_authenticated r :
  HeaderGet r "X-Incus-authenticated"
  = default "" (Header r !! "X-Incus-Authenticated").
Proof. reflexivity. Qed.

(** An untrusted client that sends the header X-Incus-authenticated with
    a value is not let through, whatever the endpoint allows: no handler
    runs for it. *)
Lemma claimed_authentication_no_handler X d version c r r' value
    username protocol err :
  Header r !! "X-Incus-Authenticated" = Some value ->
  value <> "" ->
  Authenticate X d true r = (false, username, protocol, err) ->
  ~ In (EvHandler r') (createCmd X d version c r).
Proof.
  intros Hh Hv Au Hin.
  destruct (createCmd_handler _ _ _ _ _ _ Hin) as (evs & a & h & A & _ & _ & _).
  destruct (admission_stages _ _ _ _ _ _ _ _ _ _ _ A Au)
    as (_ & _ & _ & rest & _ & T).
  destruct (trustGate_passed _ _ _ _ _ _ _ _ _ T) as [[F _]|(_ & _ & _ & U)];
    [discriminate|].
  rewrite HeaderGet_authenticated, Hh in U. cbn in U. contradiction.
Qed.

Example claiming_client_rejected :
  createCmd externals (daemon true false None) "1.0" publicEndpoint claimingGet
  = [EvSetContentType; EvAuthenticate; EvRender (ErrorResponse 403 None)].
Proof. vm_compute. reflexivity. Qed.

(** The identity a cluster member forwards reaches the context. *)
Example forwarded_identity :
  authContext externals forwardedGet "server-1" "cluster"
    {| Admin := true; Projects := ∅ |}
  = {| ConnCred := inl (ErrorString "no credentials");
       CtxUsername := Some "server-1";
       CtxProtocol := Some "cluster";
       CtxAccess := Some {| Admin := true; Projects := ∅ |};
       CtxForwardedAddress := Some "192.0.2.7:5000";
       CtxForwardedUsername := Some "alice";
       CtxForwardedProtocol := Some "oidc" |}.
Proof. reflexivity. Qed.

End HeaderFacts.
